(** * Mindkeeper and level 3: a shallow embedding

    The typed persistent store of [scripts/Commandeer/mindKeeper.ts] and the
    completion check of level 3, embedded as state-passing functions.

    - JavaScript numbers are IEEE 754 binary64 values: primitive floats.
    - [undefined] is [None]; a value that may be [undefined] is an [option].
    - The world's dynamic properties are a finite map from names to values.
    - [world.sendMessage] appends to the chat log of the world.
    - [system.run(f)] appends [f] to the run queue of the host; the host runs
      the queued callbacks, in order, after the current callback has returned. *)

From Stdlib Require Import String Ascii List ZArith Bool Lia DecimalString.
From Stdlib Require Import Floats.PrimFloat Floats.SpecFloat Floats.FloatOps.
From stdpp Require Import gmap strings.
Import ListNotations.

Local Open Scope string_scope.
Local Open Scope list_scope.

(** ** JavaScript strings *)

Module JS.

(** [s.split(sep)] for a separator of one character. The result is never
    empty: [split sep ""] is [[""]]. *)
Fixpoint split (sep : ascii) (s : string) : list string :=
  match s with
  | EmptyString => [EmptyString]
  | String c rest =>
      if Ascii.eqb c sep then EmptyString :: split sep rest
      else match split sep rest with
           | tok :: toks => String c tok :: toks
           | [] => [String c EmptyString]
           end
  end.

(** [a[i]]: [undefined] when out of range. *)
Definition index {A} (l : list A) (i : nat) : option A := nth_error l i.

(** [s.startsWith(p)]. *)
Definition startsWith (s p : string) : bool := String.prefix p s.

Definition lowerChar (c : ascii) : ascii :=
  let n := nat_of_ascii c in
  if (65 <=? n)%nat && (n <=? 90)%nat then ascii_of_nat (n + 32) else c.

(** [s.toLowerCase()], on the ASCII letters; the other characters of a byte
    string are kept. No character outside ASCII lowers to one of [t], [r],
    [u], [e], so the comparison with ["true"] below is not affected. *)
Fixpoint toLowerCase (s : string) : string :=
  match s with
  | EmptyString => EmptyString
  | String c rest => String (lowerChar c) (toLowerCase rest)
  end.

(** The separator of the chat commands. *)
Definition space : ascii := " "%char.

(** [has sep s]: the character [sep] occurs in [s]. *)
Fixpoint has (sep : ascii) (s : string) : bool :=
  match s with
  | EmptyString => false
  | String c rest => Ascii.eqb c sep || has sep rest
  end.

End JS.

(** ** The host runtime

    What the script engine provides and the repository does not define: the
    conversion of a string to a number, the printing of a number, and when
    [world.getDynamicProperty] throws. A host may refuse a name whatever is
    stored (an invalid name), or refuse to read a name under which nothing is
    stored yet. *)

Class Runtime := {
  (** [Number(s)] *)
  Number : string -> float;
  (** [String(n)] for a number [n], as a template literal prints it *)
  numberToString : float -> string;
  (** [world.getDynamicProperty(name)] throws; the boolean tells whether a
      value is stored under the name *)
  readThrows : string -> bool -> bool
}.

Module MindKeeper.

(** ** Data *)

(** [enum StoreType]. *)
Inductive StoreType : Set :=
| StoreType_string
| StoreType_number
| StoreType_boolean.

(** The string value of an enum member. *)
Definition enumValue (t : StoreType) : string :=
  match t with
  | StoreType_string => "string"
  | StoreType_number => "number"
  | StoreType_boolean => "boolean"
  end.

(** [class Store]; [new Store(type, name)] is [mkStore type name]. *)
Record Store : Set := mkStore {
  getType : StoreType;
  getName : string
}.

(** [string | number | boolean | Vector3]. *)
Inductive Value : Set :=
| VString (s : string)
| VNumber (n : float)
| VBoolean (b : bool)
| VVector3 (x y z : float).

(** [typeof value]. *)
Definition typeof (v : Value) : string :=
  match v with
  | VString _ => "string"
  | VNumber _ => "number"
  | VBoolean _ => "boolean"
  | VVector3 _ _ _ => "object"
  end.

(** A callback handed to [system.run]. The only one of this class is
    [() => this.world.setDynamicProperty(store, value)]. *)
Inductive Task : Set :=
| SetDynamicProperty (store : string) (value : Value).

(** The host: the dynamic properties and the chat of the world, and the run
    queue of [system]. *)
Record World : Type := mkWorld {
  dynamicProperties : gmap string Value;
  messages : list string;
  runQueue : list Task
}.

(** [class Mindkeeper]. *)
Record Mindkeeper : Type := mkMindkeeper {
  registerdStores : list Store;
  world : World;
  initialised : bool;
  debugLog : list string;
  secondWarning : bool
}.

(** [new Mindkeeper(world)]. *)
Definition new (w : World) : Mindkeeper :=
  mkMindkeeper [] w false [] false.

(** Field updates. *)
Definition withWorld (f : World -> World) (mk : Mindkeeper) : Mindkeeper :=
  mkMindkeeper (registerdStores mk) (f (world mk)) (initialised mk)
               (debugLog mk) (secondWarning mk).

Definition withStores (l : list Store) (mk : Mindkeeper) : Mindkeeper :=
  mkMindkeeper l (world mk) (initialised mk) (debugLog mk) (secondWarning mk).

Definition withInitialised (b : bool) (mk : Mindkeeper) : Mindkeeper :=
  mkMindkeeper (registerdStores mk) (world mk) b (debugLog mk) (secondWarning mk).

Definition withSecondWarning (b : bool) (mk : Mindkeeper) : Mindkeeper :=
  mkMindkeeper (registerdStores mk) (world mk) (initialised mk) (debugLog mk) b.

Definition pushDebug (line : string) (mk : Mindkeeper) : Mindkeeper :=
  mkMindkeeper (registerdStores mk) (world mk) (initialised mk)
               (debugLog mk ++ [line]) (secondWarning mk).

(** ** The world *)

(** The outcome of a call that may throw. *)
Inductive Outcome (A : Type) : Type :=
| Throws
| Returns (a : A).
Arguments Throws {A}.
Arguments Returns {A} a.

Section WithRuntime.
Context `{Runtime}.

Definition isStored (stored : option Value) : bool :=
  match stored with
  | Some _ => true
  | None => false
  end.

Definition getDynamicProperty (w : World) (name : string) : Outcome (option Value) :=
  let stored := dynamicProperties w !! name in
  if readThrows name (isStored stored) then Throws else Returns stored.

Definition setDynamicProperty (name : string) (v : Value) (w : World) : World :=
  mkWorld (<[name := v]> (dynamicProperties w)) (messages w) (runQueue w).

Definition clearDynamicProperties (w : World) : World :=
  mkWorld ∅ (messages w) (runQueue w).

Definition sendMessage (m : string) (w : World) : World :=
  mkWorld (dynamicProperties w) (messages w ++ [m]) (runQueue w).

(** [system.run(task)]. *)
Definition run (t : Task) (w : World) : World :=
  mkWorld (dynamicProperties w) (messages w) (runQueue w ++ [t]).

Definition runTask (t : Task) (w : World) : World :=
  match t with
  | SetDynamicProperty store value => setDynamicProperty store value w
  end.

(** The host reaches the point where it runs the queued callbacks: each one
    runs once, in the order of the calls of [system.run]. *)
Definition flush (w : World) : World :=
  fold_left (fun w t => runTask t w) (runQueue w)
            (mkWorld (dynamicProperties w) (messages w) []).

(** ** The methods of Mindkeeper *)

Definition registerStore (store : string) (type : StoreType) (mk : Mindkeeper) : Mindkeeper :=
  withStores (registerdStores mk ++ [mkStore type store]) mk.

Definition getStores (mk : Mindkeeper) : list Store := registerdStores mk.

Definition printDebug (mk : Mindkeeper) : Mindkeeper :=
  fold_left (fun mk t => withWorld (sendMessage t) mk) (debugLog mk) mk.

(** [stores.find((s) => s.getName() === store)?.getType()]. *)
Definition findType (stores : list Store) (store : string) : option StoreType :=
  getType <$> List.find (fun s => String.eqb (getName s) store) stores.

(** One iteration of the loop of [registerToWorld]: a read that throws is
    caught and counts, like [undefined], as not yet defined. *)
Definition registerOne (mk : Mindkeeper) (s : Store) : Mindkeeper :=
  let isAlreadyDefined :=
    match getDynamicProperty (world mk) (getName s) with
    | Returns (Some _) => true
    | Returns None => false
    | Throws => false
    end in
  if isAlreadyDefined then mk
  else
    match getType s with
    | StoreType_string =>
        pushDebug ("registerd string" +:+ getName s)
          (withWorld (setDynamicProperty (getName s) (VString "")) mk)
    | StoreType_number =>
        pushDebug ("registerd number" +:+ getName s)
          (withWorld (setDynamicProperty (getName s) (VNumber 0%float)) mk)
    | StoreType_boolean =>
        pushDebug ("registerd boolean" +:+ getName s)
          (withWorld (setDynamicProperty (getName s) (VBoolean false)) mk)
    end.

Definition registerAll (stores : list Store) (mk : Mindkeeper) : Mindkeeper :=
  fold_left registerOne stores mk.

Definition registerToWorld (mk : Mindkeeper) : Mindkeeper :=
  withInitialised true (registerAll (registerdStores mk) mk).

(** The zero value of a type, in the words of the specification: the empty
    string, 0 and false. *)
Definition zeroValue (t : StoreType) : Value :=
  match t with
  | StoreType_string => VString ""
  | StoreType_number => VNumber 0%float
  | StoreType_boolean => VBoolean false
  end.

(** [a != typeof value] for [a] of type [StoreType | undefined]. *)
Definition differs (a : option StoreType) (ty : string) : bool :=
  match a with
  | Some t => negb (String.eqb (enumValue t) ty)
  | None => true
  end.

Definition set (store : string) (value : Value) (mk : Mindkeeper) : Mindkeeper :=
  if differs (findType (registerdStores mk) store) (typeof value) then
    withWorld (sendMessage ("Store " +:+ store +:+ " is not of type " +:+ typeof value)) mk
  else
    withWorld (run (SetDynamicProperty store value)) mk.

Definition get (store : string) (mk : Mindkeeper) : option Value * Mindkeeper :=
  match getDynamicProperty (world mk) store with
  | Returns None =>
      (None, withWorld (sendMessage ("Store " +:+ store +:+ " is not defined")) mk)
  | Returns (Some data) => (Some data, mk)
  | Throws => (None, mk)
  end.

Definition increment (store : string) (mk : Mindkeeper) : Mindkeeper :=
  let '(data, mk) := get store mk in
  match data with
  | Some (VNumber n) => set store (VNumber (n + 1)%float) mk
  | _ => mk
  end.

(** ** The chat commands *)

(** A statement either falls through to the next one or returns from the
    method. *)
Inductive Flow : Type :=
| Continue (mk : Mindkeeper)
| Return (mk : Mindkeeper).

Definition andThen (f : Flow) (k : Mindkeeper -> Flow) : Flow :=
  match f with
  | Continue mk => k mk
  | Return mk => Return mk
  end.

Definition finish (f : Flow) : Mindkeeper :=
  match f with
  | Continue mk => mk
  | Return mk => mk
  end.

(** A value printed inside a template literal. *)
Definition display (v : option Value) : string :=
  match v with
  | None => "undefined"
  | Some (VString s) => s
  | Some (VNumber n) => numberToString n
  | Some (VBoolean b) => if b then "true" else "false"
  | Some (VVector3 _ _ _) => "[object Object]"
  end.

Definition displayToken (t : option string) : string :=
  match t with
  | Some s => s
  | None => "undefined"
  end.

(** The body of [if (command === "!get")]. Without an argument the name is
    [undefined]; the host refuses an identifier that is not a string, and [get]
    catches that as it catches every failure of the read. *)
Definition commandGet (parts : list string) (mk : Mindkeeper) : Mindkeeper :=
  let store := JS.index parts 1 in
  let '(value, mk) :=
    match store with
    | Some s => get s mk
    | None => (None, mk)
    end in
  withWorld (sendMessage ("Value of " +:+ displayToken store +:+ " is " +:+ display value)) mk.

(** The [switch (actualType)] of [!set]. *)
Definition coerceAndSet (actualType : StoreType) (store value : string)
    (mk : Mindkeeper) : Flow :=
  match actualType with
  | StoreType_string => Continue (set store (VString value) mk)
  | StoreType_number =>
      if is_nan (Number value) then
        Return (withWorld (sendMessage ("Can't parse " +:+ value +:+ " as a number")) mk)
      else Continue (set store (VNumber (Number value)) mk)
  | StoreType_boolean =>
      let ActualValue := JS.toLowerCase value in
      Continue (set store (VBoolean (String.eqb ActualValue "true")) mk)
  end.

(** The body of [if (command === "!set")]. *)
Definition commandSet (parts : list string) (mk : Mindkeeper) : Flow :=
  match JS.index parts 1 with
  | None => Return (withWorld (sendMessage "Please provide a store to set") mk)
  | Some store =>
      match JS.index parts 2 with
      | None =>
          Return (withWorld (sendMessage ("Please provide a value to set for " +:+ store)) mk)
      | Some value =>
          let type := JS.index parts 3 in
          match findType (getStores mk) store with
          | None =>
              Return (withWorld (sendMessage ("Store " +:+ store +:+ " is not defined")) mk)
          | Some actualType =>
              andThen (coerceAndSet actualType store value mk) (fun mk =>
              Continue (withWorld (sendMessage ("Value of " +:+ store +:+ " is " +:+ value)) mk))
          end
      end
  end.

Definition commandListStores (mk : Mindkeeper) : Mindkeeper :=
  fold_left
    (fun mk store =>
       withWorld (sendMessage (getName store +:+ " is " +:+ enumValue (getType store))) mk)
    (getStores mk) mk.

Definition commandDeleteStores (mk : Mindkeeper) : Mindkeeper :=
  let mk := withWorld (sendMessage
    "ARE YOU SURE YOU WANT TO DELETE ALL STORES? THIS COULD CAUSE ISSUES") mk in
  let mk := withWorld (sendMessage "If you are sure, type !deleteStoresConfirm") mk in
  withSecondWarning true mk.

Definition commandDeleteStoresConfirm (mk : Mindkeeper) : Mindkeeper :=
  let mk := fold_left
    (fun mk store => withWorld (sendMessage ("Deleting " +:+ getName store)) mk)
    (getStores mk) mk in
  let mk := withWorld clearDynamicProperties mk in
  withSecondWarning false mk.

(** What the specification says of [!set store value], by the declared type of
    the store: the value that is queued for writing and the message. *)
Definition setOutcome (T : StoreType) (store value : string)
    (mk : Mindkeeper) : Mindkeeper :=
  let report := sendMessage ("Value of " +:+ store +:+ " is " +:+ value) in
  match T with
  | StoreType_string =>
      withWorld report (withWorld (run (SetDynamicProperty store (VString value))) mk)
  | StoreType_number =>
      if is_nan (Number value) then
        withWorld (sendMessage ("Can't parse " +:+ value +:+ " as a number")) mk
      else
        withWorld report
          (withWorld (run (SetDynamicProperty store (VNumber (Number value)))) mk)
  | StoreType_boolean =>
      withWorld report
        (withWorld (run (SetDynamicProperty store
                           (VBoolean (String.eqb (JS.toLowerCase value) "true")))) mk)
  end.

(** [event.message.split(" ")[0]]: the text before the first space. *)
Definition commandOf (message : string) : string :=
  displayToken (JS.index (JS.split JS.space message) 0).

(** [chatCommands(event)], on [event.message]. *)
Definition chatCommands (message : string) (mk : Mindkeeper) : Mindkeeper :=
  let parts := JS.split JS.space message in
  let command := commandOf message in
  let args := tl parts in
  finish (
    andThen (Continue (if String.eqb command "!get" then commandGet parts mk else mk)) (fun mk =>
    andThen (if String.eqb command "!set" then commandSet parts mk else Continue mk) (fun mk =>
    andThen (Continue (if JS.startsWith message "!listStores" then commandListStores mk else mk)) (fun mk =>
    andThen (Continue (if String.eqb command "!deleteStores" then commandDeleteStores mk else mk)) (fun mk =>
    Continue (if secondWarning mk then
                if String.eqb command "!deleteStoresConfirm" then commandDeleteStoresConfirm mk
                else mk
              else mk)))))).

End WithRuntime.

End MindKeeper.

(** ** Level 3 *)

Module Level3.

(** A block position. [vector3(x, y, z)] builds one. *)
Record Vector3 : Set := vector3 {
  x : Z;
  y : Z;
  z : Z
}.

(** Modelled from the spec: vector math of [utils/vectorUtils], which is not
    part of the sources at hand; the sum is taken by coordinate. *)
Definition Vector3Add (a b : Vector3) : Vector3 :=
  vector3 (x a + x b) (y a + y b) (z a + z b).

Definition Vector3Eqb (a b : Vector3) : bool :=
  (x a =? x b)%Z && (y a =? y b)%Z && (z a =? z b)%Z.

(** An entry of [level3Conditions.conditions]. *)
Record Condition : Set := mkCondition {
  block : string;
  position : Vector3
}.

(** What the level takes from the rest of the repository and from the host:
    the condition list of [levelConditions/level3], the block identifiers of
    [vanilla-data/mojang-block], and the dimension a name resolves to. *)
Class Host := {
  conditions : list Condition;
  Water : string;
  RedstoneBlock : string;
  getDimension : string -> string
}.

(** The state of the game the level reads and changes: the blocks of each
    dimension ([None] where [getBlock] returns [undefined]), the position of
    the agent, and the texts on screen. *)
Record Game : Type := mkGame {
  blocks : string -> Vector3 -> option string;
  agentLocation : Vector3;
  title : option (string * float);
  subtitle : option string
}.

Definition Level3CommandBlockPos : Vector3 := vector3 58 66 279.
Definition level3StartPosition : Vector3 := vector3 56 69 235.
Definition Level3EndPosition : Vector3 := vector3 72 70 235.
Definition level3ResetCommandBlockPos : Vector3 := vector3 54 68 242.

Section WithHost.
Context `{Host}.

(** [dimension.getBlock(p)?.type.id]. *)
Definition getBlock (dimension : string) (p : Vector3) (g : Game) : option string :=
  blocks g dimension p.

(** [dimension.fillBlocks(new BlockVolume(p, p), b)]: the volume is one block. *)
Definition fillBlocks (dimension : string) (p : Vector3) (b : string) (g : Game) : Game :=
  mkGame
    (fun d q =>
       if String.eqb d dimension && Vector3Eqb q p then Some b else blocks g d q)
    (agentLocation g) (title g) (subtitle g).

(** [startLevel(commandBlockPos)] of [utils/levelUtils]. *)
Definition startLevel (commandBlockPos : Vector3) (g : Game) : Game :=
  fillBlocks (getDimension "overworld") commandBlockPos RedstoneBlock g.

(** Modelled from the spec: the agent services of [utils/agentUtils]
    (teleport-to-position, check-at-position), which are not part of the
    sources at hand. *)
Definition getAgentLocation (g : Game) : Vector3 := agentLocation g.

Definition teleportAgent (p : Vector3) (g : Game) : Game :=
  mkGame (blocks g) p (title g) (subtitle g).

Definition isAgentAt (p : Vector3) (g : Game) : bool :=
  Vector3Eqb (agentLocation g) p.

(** Modelled from the spec: the on-screen text services of [pupeteer], which
    are not part of the sources at hand. *)
Definition setTitleTimed (text : string) (seconds : float) (g : Game) : Game :=
  mkGame (blocks g) (agentLocation g) (Some (text, seconds)) (subtitle g).

Definition updateSubtitle (text : string) (g : Game) : Game :=
  mkGame (blocks g) (agentLocation g) (title g) (Some text).

(** [a == b] and [a != b] between a string and a string that may be
    [undefined]. *)
Definition looseEq (a : option string) (b : string) : bool :=
  match a with
  | Some s => String.eqb s b
  | None => false
  end.

(** The first lines of [checkCompletion]: the two flags. *)
Definition isOutOfBounds (g : Game) : bool :=
  let agentLocation := getAgentLocation g in
  let blockUnderAgent :=
    getBlock (getDimension "overworld") (Vector3Add agentLocation (vector3 0 (-1) 0)) g in
  looseEq blockUnderAgent Water.

Definition isComplete (g : Game) : bool :=
  fold_left
    (fun isComplete condition =>
       if negb (looseEq (getBlock (getDimension "Overworld") (position condition) g)
                        (block condition))
       then false else isComplete)
    conditions true.

(** The fourth callback of [level3]. The result is [Some true], [Some false]
    or [None], for a function that ends without a [return]. *)
Definition checkCompletion (g : Game) : option bool * Game :=
  if isComplete g && negb (isOutOfBounds g) then (Some true, g)
  else if isOutOfBounds g then
    let g := teleportAgent level3StartPosition g in
    let g := setTitleTimed "%message.level.outofbounds" 2.5%float g in
    let g := updateSubtitle "%message.level.outofbounds.subtext" g in
    (Some false, g)
  else if isAgentAt Level3EndPosition g then
    let g := teleportAgent level3StartPosition g in
    let g := setTitleTimed "%message.level.incorrect" 2.5%float g in
    let g := updateSubtitle "%message.level.incorrect.subtext" g in
    let g := fillBlocks (getDimension "overworld") level3ResetCommandBlockPos RedstoneBlock g in
    (None, g)
  else (None, g).

(** Every condition of the level finds its block in the world. *)
Definition conditionsHold (g : Game) : Prop :=
  Forall
    (fun condition =>
       getBlock (getDimension "Overworld") (position condition) g = Some (block condition))
    conditions.

(** The disqualifying tile: the block under the agent is water. *)
Definition onWater (g : Game) : Prop :=
  getBlock (getDimension "overworld") (Vector3Add (agentLocation g) (vector3 0 (-1) 0)) g
  = Some Water.

(** The state after the recovery from the water. *)
Definition afterOutOfBounds (g : Game) : Game :=
  updateSubtitle "%message.level.outofbounds.subtext"
    (setTitleTimed "%message.level.outofbounds" 2.5%float
       (teleportAgent level3StartPosition g)).

(** The state after the recovery from a wrong arrangement. *)
Definition afterIncorrect (g : Game) : Game :=
  fillBlocks (getDimension "overworld") level3ResetCommandBlockPos RedstoneBlock
    (updateSubtitle "%message.level.incorrect.subtext"
       (setTitleTimed "%message.level.incorrect" 2.5%float
          (teleportAgent level3StartPosition g))).

End WithHost.

End Level3.

(** ** An instance of the host for the examples

    The theorems below hold for every [Runtime] and every [Level3.Host]. The
    examples run the definitions on this instance, which reads unsigned
    decimal integers (exactly below 2^53) and takes every other text as
    [NaN], prints a number by its exact decimal expansion (what JavaScript
    prints for the integers below 10^21), and takes the empty name and the
    names with a space in them as invalid: the read of such a name throws as
    long as nothing is stored under it. Every name under which a value is
    stored is read. *)

Module Example.

Import MindKeeper.

Fixpoint count (n : nat) : float :=
  match n with
  | O => 0%float
  | S n => (count n + 1)%float
  end.

(** The value of a decimal digit, from its character code. *)
Definition digit (c : ascii) : option float :=
  let code := nat_of_ascii c in
  if (48 <=? code)%nat && (code <=? 57)%nat then Some (count (code - 48)) else None.

Fixpoint digits (acc : float) (s : string) : option float :=
  match s with
  | EmptyString => Some acc
  | String c rest =>
      match digit c with
      | Some d => digits (acc * 10 + d)%float rest
      | None => None
      end
  end.

Definition number (s : string) : float :=
  match digits 0%float s with
  | Some n => n
  | None => PrimFloat.nan
  end.

Definition decimal (n : Z) : string :=
  DecimalString.NilZero.string_of_uint (N.to_uint (Z.to_N n)).

Fixpoint zeros (n : nat) : string :=
  match n with
  | O => EmptyString
  | S n => String "0" (zeros n)
  end.

(** [m / 2^k] in decimal, for [m] odd and [k > 0]. *)
Definition fraction (m k : Z) : string :=
  let whole := (m / 2 ^ k)%Z in
  let part := decimal ((m mod 2 ^ k) * 5 ^ k)%Z in
  decimal whole +:+ "." +:+ zeros (Z.to_nat k - String.length part) +:+ part.

(** The odd part of [m * 2^e], by at most [fuel] halvings. *)
Fixpoint reduce (fuel : nat) (m e : Z) : Z * Z :=
  match fuel with
  | O => (m, e)
  | S fuel => if Z.even m then reduce fuel (m / 2)%Z (e + 1)%Z else (m, e)
  end.

Definition toString (n : float) : string :=
  match FloatOps.Prim2SF n with
  | SpecFloat.S754_nan => "NaN"
  | SpecFloat.S754_infinity s => if s then "-Infinity" else "Infinity"
  | SpecFloat.S754_zero _ => "0"
  | SpecFloat.S754_finite s m e =>
      let '(m, e) := reduce 64 (Z.pos m) e in
      (if s then "-" else "") +:+
      (if (0 <=? e)%Z then decimal (m * 2 ^ e)%Z else fraction m (- e)%Z)
  end.

#[export] Instance runtime : Runtime := {|
  Number := number;
  numberToString := toString;
  readThrows := fun name stored =>
    negb stored && (String.eqb name "" || JS.has JS.space name)
|}.

(** Level 3 with two conditions; both spellings of the overworld resolve to
    the same dimension. *)
#[export] Instance host : Level3.Host := {|
  Level3.conditions :=
    [Level3.mkCondition "minecraft:gold_block" (Level3.vector3 60 69 235);
     Level3.mkCondition "minecraft:iron_block" (Level3.vector3 64 69 235)];
  Level3.Water := "minecraft:water";
  Level3.RedstoneBlock := "minecraft:redstone_block";
  Level3.getDimension := fun _ => "minecraft:overworld"
|}.

(** A host that cannot read a name before a value is stored under it, and
    reads every name after. *)
Definition strict : Runtime := {|
  Number := number;
  numberToString := toString;
  readThrows := fun _ stored => negb stored
|}.

(** A world with nothing stored, nothing said and nothing queued. *)
Definition emptyWorld : World := mkWorld ∅ [] [].

(** A world that holds [value] under [name]. *)
Definition worldWith (name : string) (value : Value) : World :=
  mkWorld {[ name := value ]} [] [].

(** A Mindkeeper over [w] with the stores of [l] registered in order. *)
Definition keeper (l : list (string * StoreType)) (w : World) : Mindkeeper :=
  fold_left (fun mk s => registerStore (fst s) (snd s) mk) l (new w).

(** A game in which a few blocks are placed and the rest is stone. *)
Definition game (placed : list (Level3.Vector3 * string)) (agent : Level3.Vector3) : Level3.Game :=
  Level3.mkGame
    (fun _ p =>
       match List.find (fun e => Level3.Vector3Eqb (fst e) p) placed with
       | Some e => Some (snd e)
       | None => Some "minecraft:stone"
       end)
    agent None None.

(** The agent on the end position, over water, with no condition met. *)
Definition drowned : Level3.Game :=
  game [(Level3.vector3 72 69 235, "minecraft:water")] Level3.Level3EndPosition.

(** The agent on the end position, on stone, with no condition met. *)
Definition arrived : Level3.Game := game [] Level3.Level3EndPosition.

(** The agent at the start, with both conditions met. *)
Definition solved : Level3.Game :=
  game [(Level3.vector3 60 69 235, "minecraft:gold_block");
        (Level3.vector3 64 69 235, "minecraft:iron_block")] Level3.level3StartPosition.

End Example.

(** ** The contract of the registry

    What the later sections state about the store as a whole: which values
    fit a store, and what a method that only talks leaves behind. *)

Module Contract.

Import MindKeeper.

(** [value] fits [store]: the registry resolves the name to the type of the
    value. This is the test of [set], negated. *)
Definition fits (stores : list Store) (store : string) (value : Value) : bool :=
  negb (differs (findType stores store) (typeof value)).

Definition taskFits (stores : list Store) (t : Task) : bool :=
  match t with
  | SetDynamicProperty store value => fits stores store value
  end.

(** Every queued write fits its store. *)
Definition queueFits (stores : list Store) (queue : list Task) : bool :=
  forallb (taskFits stores) queue.

(** Every property stored under a registered name fits its store. *)
Definition worldFits (stores : list Store) (properties : gmap string Value) : Prop :=
  forall (store : string) (value : Value),
    properties !! store = Some value ->
    findType stores store <> None ->
    fits stores store value = true.

(** [mk] after the messages of [lines] have been sent, and nothing else has
    happened. *)
Definition say (lines : list string) (mk : Mindkeeper) : Mindkeeper :=
  withWorld
    (fun w => mkWorld (dynamicProperties w) (messages w ++ lines) (runQueue w)) mk.

(** The line of [!listStores] for a store. *)
Definition listLine (s : Store) : string :=
  getName s +:+ " is " +:+ enumValue (getType s).

(** The words that [chatCommands] compares the first word with. *)
Definition isCommand (command : string) : bool :=
  String.eqb command "!get" || String.eqb command "!set"
  || String.eqb command "!deleteStores" || String.eqb command "!deleteStoresConfirm".

(** What a chat message does apart from the lines it sends: [!deleteStores]
    raises the flag, [!deleteStoresConfirm] under a raised flag clears the
    properties and lowers it, and otherwise at most one write is queued. *)
Definition effect (command : string) (queued : option Task) (mk : Mindkeeper) : Mindkeeper :=
  if String.eqb command "!deleteStores" then withSecondWarning true mk
  else if String.eqb command "!deleteStoresConfirm" && secondWarning mk then
    withSecondWarning false (withWorld clearDynamicProperties mk)
  else
    match queued with
    | Some t => withWorld (run t) mk
    | None => mk
    end.

(** The type contract of a Mindkeeper: what is stored under a registered name,
    and what is queued to be stored, fits. *)
Definition typed (mk : Mindkeeper) : Prop :=
  worldFits (registerdStores mk) (dynamicProperties (world mk))
  /\ queueFits (registerdStores mk) (runQueue (world mk)) = true.

(** The lines [!get] sends for a store, by the outcome of the read. *)
Definition getLines (store : string) (read : Outcome (option Value))
    (shown : string) : list string :=
  match read with
  | Returns (Some _) => ["Value of " +:+ store +:+ " is " +:+ shown]
  | Returns None =>
      ["Store " +:+ store +:+ " is not defined"; "Value of " +:+ store +:+ " is undefined"]
  | Throws => ["Value of " +:+ store +:+ " is undefined"]
  end.

End Contract.

(** ** The walls of [utils/levelUtils] *)

Module LevelUtils.

Import Level3.

(** [type Wall]. *)
Record Wall : Set := mkWall {
  startPos : Vector3;
  endPos : Vector3
}.

(** The block identifier of [vanilla-data/mojang-block] that the walls use. *)
Class BlockTypes := {
  air : string
}.

Definition between (a b c : Z) : bool :=
  (Z.min a b <=? c)%Z && (c <=? Z.max a b)%Z.

(** [new BlockVolume(from, to)] holds the blocks of the box between its two
    corners, the corners included, whichever corner is the lower one on an
    axis. *)
Definition inVolume (from to p : Vector3) : bool :=
  between (x from) (x to) (x p) && between (y from) (y to) (y p)
  && between (z from) (z to) (z p).

Section WithHost.
Context `{Host} `{BlockTypes}.

(** [dimension.fillBlocks(new BlockVolume(from, to), b)]. *)
Definition fillVolume (dimension : string) (from to : Vector3) (b : string)
    (g : Game) : Game :=
  mkGame
    (fun d q =>
       if String.eqb d dimension && inVolume from to q then Some b else blocks g d q)
    (agentLocation g) (title g) (subtitle g).

Definition clearWall (wall : Wall) (g : Game) : Game :=
  fillVolume (getDimension "overworld") (startPos wall) (endPos wall) air g.

Definition fillWall (wall : Wall) (block : string) (g : Game) : Game :=
  fillVolume (getDimension "overworld") (startPos wall) (endPos wall) block g.

End WithHost.

End LevelUtils.

(** ** The other callbacks of level 3 *)

Module Level3Callbacks.

Import MindKeeper Level3.

(** What the callbacks act on: the game, the Mindkeeper of [main], whose
    world is the world the level sends its messages to, and the action bar. *)
Record Session : Type := mkSession {
  game : Game;
  mindKeeper : Mindkeeper;
  actionBar : option string
}.

(** The name of the store of the current level, a constant of [main]. *)
Class Main := {
  CURRENT_LEVEL : string
}.

Definition onGame (f : Game -> Game) (s : Session) : Session :=
  mkSession (f (game s)) (mindKeeper s) (actionBar s).

Definition onKeeper (f : Mindkeeper -> Mindkeeper) (s : Session) : Session :=
  mkSession (game s) (f (mindKeeper s)) (actionBar s).

Section WithHosts.
Context `{Runtime} `{Host} `{Main}.

(** [world.sendMessage(m)]. *)
Definition worldSendMessage (m : string) (s : Session) : Session :=
  onKeeper (withWorld (sendMessage m)) s.

(** Modelled from the spec: the action bar of [pupeteer], which is not part
    of the sources at hand (set and clear a transient on-screen text). *)
Definition setActionBar (text : string) (s : Session) : Session :=
  mkSession (game s) (mindKeeper s) (Some text).

Definition clearActionBar (s : Session) : Session :=
  mkSession (game s) (mindKeeper s) None.

(** The first callback of [level3]. *)
Definition onStart (s : Session) : Session :=
  let s := worldSendMessage "%message.level3.started" s in
  let s := onGame (setTitleTimed "%message.level3.name" 2.5%float) s in
  let s := onGame (startLevel Level3CommandBlockPos) s in
  onGame (teleportAgent level3StartPosition) s.

(** The second callback. *)
Definition onTick (s : Session) : Session :=
  setActionBar "%message.level3.make" s.

(** The third callback. *)
Definition onComplete (s : Session) : Session :=
  let s := clearActionBar s in
  let s := worldSendMessage "%message.level3.complete" s in
  let s := onGame (setTitleTimed "%message.level3.complete" 2.5%float) s in
  onKeeper (increment CURRENT_LEVEL) s.

End WithHosts.

End Level3Callbacks.

(** ** More of the example host *)

Module Scenario.

Import MindKeeper Level3.

#[export] Instance blockTypes : LevelUtils.BlockTypes := {|
  LevelUtils.air := "minecraft:air"
|}.

#[export] Instance main : Level3Callbacks.Main := {|
  Level3Callbacks.CURRENT_LEVEL := "currentLevel"
|}.

(** The stores of a game in progress, all initialised. *)
Definition progress : Mindkeeper :=
  mkMindkeeper
    [mkStore StoreType_number "currentLevel"; mkStore StoreType_string "player";
     mkStore StoreType_boolean "done"]
    (mkWorld
       (<["currentLevel" := VNumber 2%float]>
          (<["player" := VString "ada"]> (<["done" := VBoolean false]> ∅)))
       [] [])
    true [] false.

(** A wall of three blocks by two, given from its upper corner. *)
Definition gate : LevelUtils.Wall :=
  LevelUtils.mkWall (vector3 12 71 5) (vector3 10 70 5).

End Scenario.

Example toString_examples :
  map Example.toString [0; 1; 6; 120; 0.5; 2.75; -3]%float
  = ["0"; "1"; "6"; "120"; "0.5"; "2.75"; "-3"].
Proof. vm_compute. reflexivity. Qed.

(** * Properties of the store *)

Import MindKeeper.

Section StoreProperties.
Context `{Runtime}.

Implicit Types (mk : Mindkeeper) (w : World) (store : string) (value : Value).

(** ** The type check of [set] *)

Lemma enumValue_inj (a b : StoreType) : enumValue a = enumValue b -> a = b.
Proof. destruct a, b; simpl; intros E; first [reflexivity | discriminate E]. Qed.

Lemma differs_Some (T : StoreType) (ty : string) :
  differs (Some T) ty = false <-> ty = enumValue T.
Proof.
  unfold differs. rewrite negb_false_iff, String.eqb_eq. split; congruence.
Qed.

Lemma differs_Some_true (T : StoreType) (ty : string) :
  differs (Some T) ty = true <-> ty <> enumValue T.
Proof.
  unfold differs. rewrite negb_true_iff, String.eqb_neq. split; congruence.
Qed.

Lemma set_accepts mk store value (T : StoreType) :
  findType (registerdStores mk) store = Some T ->
  typeof value = enumValue T ->
  set store value mk = withWorld (run (SetDynamicProperty store value)) mk.
Proof.
  intros Hfind Hty. unfold set. rewrite Hfind.
  apply differs_Some in Hty. rewrite Hty. reflexivity.
Qed.

Lemma set_rejects mk store value :
  differs (findType (registerdStores mk) store) (typeof value) = true ->
  set store value mk =
  withWorld (sendMessage ("Store " +:+ store +:+ " is not of type " +:+ typeof value)) mk.
Proof. intros Hd. unfold set. rewrite Hd. reflexivity. Qed.

Lemma findType_cons (s : Store) (l : list Store) (k : string) :
  findType (s :: l) k = if String.eqb (getName s) k then Some (getType s) else findType l k.
Proof. unfold findType. simpl. destruct (String.eqb (getName s) k); reflexivity. Qed.

(** When no two descriptors share a name, the lookup of a registered name
    finds its descriptor. *)
Lemma findType_unique (l : list Store) (s : Store) :
  List.NoDup (map getName l) -> In s l -> findType l (getName s) = Some (getType s).
Proof.
  induction l as [|a l IH]; simpl; intros Hnd Hin; [contradiction|].
  rewrite findType_cons. inversion Hnd as [|? ? Hfresh Hnd']; subst.
  destruct Hin as [-> | Hin].
  - rewrite String.eqb_refl. reflexivity.
  - destruct (String.eqb_spec (getName a) (getName s)) as [E | _].
    + contradiction Hfresh. rewrite E. apply in_map. exact Hin.
    + apply IH; assumption.
Qed.

(** ** The run queue *)

Lemma fold_runTask_messages (q : list Task) w :
  messages (fold_left (fun w t => runTask t w) q w) = messages w.
Proof.
  revert w. induction q as [|[s v] q IH]; intros w; simpl; [reflexivity|].
  rewrite IH. reflexivity.
Qed.

Lemma fold_runTask_queue (q : list Task) w :
  runQueue (fold_left (fun w t => runTask t w) q w) = runQueue w.
Proof.
  revert w. induction q as [|[s v] q IH]; intros w; simpl; [reflexivity|].
  rewrite IH. reflexivity.
Qed.

(** Only the stored properties and the queue decide what a flush stores. *)
Lemma fold_runTask_properties (q : list Task) w w' :
  dynamicProperties w = dynamicProperties w' ->
  dynamicProperties (fold_left (fun w t => runTask t w) q w) =
  dynamicProperties (fold_left (fun w t => runTask t w) q w').
Proof.
  revert w w'. induction q as [|[s v] q IH]; intros w w' E; simpl; [exact E|].
  apply IH. simpl. rewrite E. reflexivity.
Qed.

Lemma flush_run store value w :
  dynamicProperties (flush (run (SetDynamicProperty store value) w)) =
  <[store := value]> (dynamicProperties (flush w)).
Proof.
  unfold flush, run. simpl. rewrite fold_left_app. reflexivity.
Qed.

Lemma flush_sendMessage (m : string) w :
  dynamicProperties (flush (sendMessage m w)) = dynamicProperties (flush w).
Proof. unfold flush. simpl. apply fold_runTask_properties. reflexivity. Qed.

Lemma flush_queue w : runQueue (flush w) = [].
Proof. unfold flush. rewrite fold_runTask_queue. reflexivity. Qed.

Lemma app_singleton_neq {A} (l : list A) (a : A) : l <> l ++ [a].
Proof.
  intros E. apply (f_equal (@length A)) in E.
  rewrite length_app in E. simpl in E. lia.
Qed.

(** ** [set] *)

(** C1. For a name that the registry lookup resolves to the declared type
    [T], [set store value] hands the write of [value] to the host exactly
    when [typeof value] is [T], and once the host has run the queued write
    the property holds [value]. When the name is not registered, or the type
    differs, [set] sends the type-mismatch message, queues nothing and leaves
    the stored properties as they were, also after the host has run its
    queue. With one descriptor per name, the declared type of every
    registered store is the one the lookup resolves to. *)
Theorem set_type_safety mk store value :
  (forall T : StoreType,
      findType (registerdStores mk) store = Some T ->
      (world (set store value mk) = run (SetDynamicProperty store value) (world mk)
       <-> typeof value = enumValue T)
      /\ (typeof value = enumValue T ->
          dynamicProperties (flush (world (set store value mk))) !! store = Some value))
  /\ (findType (registerdStores mk) store = None
      \/ (exists T : StoreType,
             findType (registerdStores mk) store = Some T /\ typeof value <> enumValue T) ->
      set store value mk =
      withWorld (sendMessage ("Store " +:+ store +:+ " is not of type " +:+ typeof value)) mk
      /\ runQueue (world (set store value mk)) = runQueue (world mk)
      /\ dynamicProperties (world (set store value mk)) = dynamicProperties (world mk)
      /\ dynamicProperties (flush (world (set store value mk))) =
         dynamicProperties (flush (world mk)))
  /\ (List.NoDup (map getName (registerdStores mk)) ->
      forall s : Store,
        In s (registerdStores mk) ->
        findType (registerdStores mk) (getName s) = Some (getType s)).
Proof.
  split; [|split].
  - intros T Hfind. split; [split|].
    + intros Hw. destruct (differs (Some T) (typeof value)) eqn:Hd.
      * exfalso. unfold set in Hw. rewrite Hfind, Hd in Hw.
        apply (f_equal runQueue) in Hw. simpl in Hw.
        exact (app_singleton_neq _ _ Hw).
      * apply differs_Some. exact Hd.
    + intros Hty. rewrite (set_accepts _ _ _ T Hfind Hty). reflexivity.
    + intros Hty. rewrite (set_accepts _ _ _ T Hfind Hty). simpl.
      rewrite flush_run. apply lookup_insert_eq.
  - intros Hbad.
    assert (Hd : differs (findType (registerdStores mk) store) (typeof value) = true).
    { destruct Hbad as [Hnone | [T [Hfind Hty]]].
      - rewrite Hnone. reflexivity.
      - rewrite Hfind. apply differs_Some_true. exact Hty. }
    rewrite (set_rejects _ _ _ Hd). simpl.
    repeat split; try reflexivity. apply flush_sendMessage.
  - intros Hnd s Hin. apply findType_unique; assumption.
Qed.

(** C8. A [set] that passes the type check stores nothing itself: it queues
    the write with [system.run]. A [get] of the same name right after it, in
    the same callback, yields what it yielded before the [set]; once the host
    has run the queue, it yields the value that was set. *)
Theorem set_is_deferred mk store value (T : StoreType) :
  findType (registerdStores mk) store = Some T ->
  typeof value = enumValue T ->
  dynamicProperties (world (set store value mk)) = dynamicProperties (world mk)
  /\ runQueue (world (set store value mk)) =
     runQueue (world mk) ++ [SetDynamicProperty store value]
  /\ fst (get store (set store value mk)) = fst (get store mk)
  /\ (readThrows store true = false ->
      fst (get store (withWorld flush (set store value mk))) = Some value).
Proof.
  intros Hfind Hty. rewrite (set_accepts _ _ _ T Hfind Hty).
  split; [reflexivity|]. split; [reflexivity|]. split.
  - unfold get, getDynamicProperty. simpl.
    destruct (dynamicProperties (world mk) !! store); simpl;
      destruct (readThrows store _); reflexivity.
  - intros Hread. unfold get, getDynamicProperty. simpl.
    rewrite flush_run, lookup_insert_eq. simpl. rewrite Hread. reflexivity.
Qed.

(** ** [get] *)

(** C5, amended. [get] never fails. When the read of the property throws it
    yields no value and sends no message; when the read returns [undefined]
    it yields no value and sends the message that the store is not defined;
    when the read returns a value, the empty string included, it yields that
    value and sends nothing. *)
Theorem get_absence_or_value mk store :
  (getDynamicProperty (world mk) store = Throws -> get store mk = (None, mk))
  /\ (getDynamicProperty (world mk) store = Returns None ->
      get store mk =
      (None, withWorld (sendMessage ("Store " +:+ store +:+ " is not defined")) mk))
  /\ (forall data : Value,
         getDynamicProperty (world mk) store = Returns (Some data) ->
         get store mk = (Some data, mk)).
Proof.
  unfold get. split; [|split]; [intros E | intros E | intros data E];
    rewrite E; reflexivity.
Qed.

(** C9, amended. For a name that is not registered, [set] sends its message
    and writes nothing. [get] does not look at the registry, and what it does
    for such a name is decided by the world alone: when the read throws it
    yields no value and changes nothing; when the world holds nothing under
    the name it yields no value and sends the message that the store is not
    defined, and nothing else changes; when the world holds a value under
    the name it yields that value and changes nothing. So it yields no value
    exactly when the read throws or the world holds nothing under the name. *)
Theorem unregistered_name mk store :
  findType (registerdStores mk) store = None ->
  (forall value,
      set store value mk =
      withWorld (sendMessage ("Store " +:+ store +:+ " is not of type " +:+ typeof value)) mk
      /\ runQueue (world (set store value mk)) = runQueue (world mk)
      /\ dynamicProperties (world (set store value mk)) = dynamicProperties (world mk))
  /\ (getDynamicProperty (world mk) store = Throws -> get store mk = (None, mk))
  /\ (getDynamicProperty (world mk) store = Returns None ->
      get store mk =
      (None, withWorld (sendMessage ("Store " +:+ store +:+ " is not defined")) mk))
  /\ (forall data : Value,
         dynamicProperties (world mk) !! store = Some data ->
         readThrows store true = false ->
         get store mk = (Some data, mk))
  /\ (fst (get store mk) = None
      <-> getDynamicProperty (world mk) store = Throws
          \/ getDynamicProperty (world mk) store = Returns None).
Proof.
  intros Hnone. split; [|split; [|split; [|split]]].
  - intros value.
    assert (Hd : differs (findType (registerdStores mk) store) (typeof value) = true)
      by (rewrite Hnone; reflexivity).
    rewrite (set_rejects _ _ _ Hd). repeat split.
  - intros E. unfold get. rewrite E. reflexivity.
  - intros E. unfold get. rewrite E. reflexivity.
  - intros data E Hr. unfold get, getDynamicProperty. rewrite E. simpl.
    rewrite Hr. reflexivity.
  - unfold get.
    destruct (getDynamicProperty (world mk) store) as [|[data|]]; simpl; split;
      first [discriminate | intros [F | F]; discriminate F | tauto].
Qed.

(** ** [increment] *)

(** C6, amended. When the world holds the number [n] under a name that is
    registered with the declared type number, [increment] queues the write of
    [n + 1], and the property holds [n + 1] once the host has run its queue.
    When the world holds a number under a name that is not registered as a
    number, [set] refuses the write with its message. When the world holds a
    value that is not a number, or the read throws, [increment] changes
    nothing and says nothing. When the read returns [undefined], it stores
    and queues nothing, but the message of [get] that the store is not
    defined is sent. *)
Theorem increment_spec mk store :
  (forall n : float,
      getDynamicProperty (world mk) store = Returns (Some (VNumber n)) ->
      (findType (registerdStores mk) store = Some StoreType_number ->
       increment store mk =
       withWorld (run (SetDynamicProperty store (VNumber (n + 1)%float))) mk
       /\ dynamicProperties (flush (world (increment store mk))) !! store =
          Some (VNumber (n + 1)%float))
      /\ (findType (registerdStores mk) store <> Some StoreType_number ->
          increment store mk =
          withWorld (sendMessage ("Store " +:+ store +:+ " is not of type number")) mk))
  /\ (forall data : Value,
         getDynamicProperty (world mk) store = Returns (Some data) ->
         typeof data <> "number" ->
         increment store mk = mk)
  /\ (getDynamicProperty (world mk) store = Throws -> increment store mk = mk)
  /\ (getDynamicProperty (world mk) store = Returns None ->
      increment store mk =
      withWorld (sendMessage ("Store " +:+ store +:+ " is not defined")) mk
      /\ dynamicProperties (world (increment store mk)) = dynamicProperties (world mk)
      /\ runQueue (world (increment store mk)) = runQueue (world mk)).
Proof.
  unfold increment, get.
  split; [|split; [|split]].
  - intros n E. rewrite E. split.
    + intros Hfind.
      rewrite (set_accepts mk store (VNumber (n + 1)%float) StoreType_number Hfind eq_refl).
      split; [reflexivity|].
      simpl. rewrite flush_run. apply lookup_insert_eq.
    + intros Hfind. apply set_rejects. simpl.
      destruct (findType (registerdStores mk) store) as [[]|]; try reflexivity.
      contradiction Hfind. reflexivity.
  - intros data E Hty. rewrite E. destruct data; try reflexivity.
    contradiction Hty. reflexivity.
  - intros E. rewrite E. reflexivity.
  - intros E. rewrite E. repeat split.
Qed.

(** ** [registerToWorld] *)

(** The three cases of the switch store the zero of the type. *)
Lemma registerOne_eq mk (s : Store) :
  registerOne mk s =
  match getDynamicProperty (world mk) (getName s) with
  | Returns (Some _) => mk
  | _ =>
      pushDebug ("registerd " +:+ enumValue (getType s) +:+ getName s)
        (withWorld (setDynamicProperty (getName s) (zeroValue (getType s))) mk)
  end.
Proof.
  unfold registerOne.
  destruct (getDynamicProperty (world mk) (getName s)) as [|[v|]];
    destruct (getType s); reflexivity.
Qed.

Lemma registerOne_stores mk (s : Store) :
  registerdStores (registerOne mk s) = registerdStores mk.
Proof.
  rewrite registerOne_eq.
  destruct (getDynamicProperty (world mk) (getName s)) as [|[v|]]; reflexivity.
Qed.

Lemma registerAll_stores (l : list Store) mk :
  registerdStores (registerAll l mk) = registerdStores mk.
Proof.
  unfold registerAll. revert mk.
  induction l as [|s l IH]; intros mk; simpl; [reflexivity|].
  rewrite IH. apply registerOne_stores.
Qed.

Lemma registerAll_app (l1 l2 : list Store) mk :
  registerAll (l1 ++ l2) mk = registerAll l2 (registerAll l1 mk).
Proof. unfold registerAll. apply fold_left_app. Qed.

Lemma registerAll_snoc (l : list Store) (s : Store) mk :
  registerAll (l ++ [s]) mk = registerOne (registerAll l mk) s.
Proof. rewrite registerAll_app. reflexivity. Qed.

(** An iteration does not touch the properties of the other names. *)
Lemma registerOne_other mk (s : Store) (k : string) :
  getName s <> k ->
  dynamicProperties (world (registerOne mk s)) !! k = dynamicProperties (world mk) !! k.
Proof.
  intros Hne. rewrite registerOne_eq.
  destruct (getDynamicProperty (world mk) (getName s)) as [|[v|]]; simpl;
    first [reflexivity | apply lookup_insert_ne; exact Hne].
Qed.

(** An iteration that does not find a value stores the zero of its type. *)
Lemma registerOne_writes mk (s : Store) :
  getDynamicProperty (world mk) (getName s) = Throws
  \/ getDynamicProperty (world mk) (getName s) = Returns None ->
  dynamicProperties (world (registerOne mk s)) !! getName s = Some (zeroValue (getType s)).
Proof.
  intros [E | E]; rewrite registerOne_eq, E; simpl; apply lookup_insert_eq.
Qed.

Lemma registerAll_untouched (l : list Store) mk (k : string) :
  ~ In k (map getName l) ->
  dynamicProperties (world (registerAll l mk)) !! k = dynamicProperties (world mk) !! k.
Proof.
  unfold registerAll. revert mk.
  induction l as [|s l IH]; intros mk Hk; simpl; [reflexivity|].
  simpl in Hk. rewrite IH by tauto. apply registerOne_other. tauto.
Qed.

(** What the pass leaves under a name whose read does not throw: the value
    that was there, or else the zero of the first descriptor of that name. *)
Lemma registerAll_readable (l : list Store) mk (k : string) :
  readThrows k true = false ->
  dynamicProperties (world (registerAll l mk)) !! k =
  match dynamicProperties (world mk) !! k with
  | Some v => Some v
  | None => zeroValue <$> findType l k
  end.
Proof.
  intros Hr. unfold registerAll. revert mk.
  induction l as [|s l IH]; intros mk; simpl.
  - destruct (dynamicProperties (world mk) !! k); reflexivity.
  - rewrite IH, findType_cons.
    destruct (String.eqb_spec (getName s) k) as [E | Hne].
    + rewrite registerOne_eq. unfold getDynamicProperty. rewrite E.
      destruct (dynamicProperties (world mk) !! k) as [v|] eqn:Hv; simpl.
      * rewrite Hr, Hv. reflexivity.
      * destruct (readThrows k false); simpl; rewrite lookup_insert_eq; reflexivity.
    + rewrite (registerOne_other _ _ _ Hne). reflexivity.
Qed.

(** What the pass leaves under a name whose read throws: the zero of the
    last descriptor of that name. *)
Lemma registerAll_throwing (l : list Store) mk (k : string) :
  readThrows k true = true ->
  dynamicProperties (world (registerAll l mk)) !! k =
  match findType (rev l) k with
  | Some t => Some (zeroValue t)
  | None => dynamicProperties (world mk) !! k
  end.
Proof.
  intros Hr. induction l as [|s l IH] using rev_ind; [reflexivity|].
  rewrite registerAll_snoc, rev_unit, findType_cons.
  destruct (String.eqb_spec (getName s) k) as [E | Hne].
  - rewrite <- E. apply registerOne_writes.
    unfold getDynamicProperty. rewrite E.
    destruct (dynamicProperties (world (registerAll l mk)) !! k); simpl.
    + left. rewrite Hr. reflexivity.
    + destruct (readThrows k false); [left | right]; reflexivity.
  - rewrite (registerOne_other _ _ _ Hne). exact IH.
Qed.

Lemma registerAll_withInitialised (l : list Store) (b : bool) mk :
  registerAll l (withInitialised b mk) = withInitialised b (registerAll l mk).
Proof.
  unfold registerAll. revert mk.
  induction l as [|s l IH]; intros mk; simpl; [reflexivity|].
  rewrite <- IH. f_equal. rewrite !registerOne_eq. simpl.
  destruct (getDynamicProperty (world mk) (getName s)) as [|[v|]]; reflexivity.
Qed.

Lemma registerAll_twice (l : list Store) mk :
  dynamicProperties (world (registerAll l (registerAll l mk))) =
  dynamicProperties (world (registerAll l mk)).
Proof.
  apply map_eq. intros k. destruct (readThrows k true) eqn:Hr.
  - rewrite (registerAll_throwing l (registerAll l mk) k Hr).
    destruct (findType (rev l) k) as [t|] eqn:Hlast; [|reflexivity].
    rewrite (registerAll_throwing l mk k Hr), Hlast. reflexivity.
  - rewrite (registerAll_readable l (registerAll l mk) k Hr).
    destruct (dynamicProperties (world (registerAll l mk)) !! k) as [v|] eqn:Hv;
      [reflexivity|].
    rewrite (registerAll_readable l mk k Hr) in Hv.
    destruct (dynamicProperties (world mk) !! k); [discriminate Hv | exact Hv].
Qed.

Lemma registerToWorld_keeps (n : nat) mk (k : string) (v : Value) :
  getDynamicProperty (world mk) k = Returns (Some v) ->
  getDynamicProperty (world (Nat.iter n registerToWorld mk)) k = Returns (Some v).
Proof.
  intros Hget. induction n as [|n IH]; simpl; [exact Hget|].
  revert IH. generalize (Nat.iter n registerToWorld mk). intros mk' IH.
  unfold getDynamicProperty in *.
  destruct (dynamicProperties (world mk') !! k) as [v'|] eqn:Hv; simpl in IH;
    destruct (readThrows k _) eqn:Hr in IH; try discriminate IH.
  unfold registerToWorld. simpl.
  rewrite (registerAll_readable _ _ _ Hr), Hv. simpl. rewrite Hr. exact IH.
Qed.

(** With one descriptor per name, the zero of a descriptor is what the pass
    leaves under its name when the read before the pass finds nothing. *)
Lemma registerAll_zero_unique (l : list Store) mk (s : Store) :
  List.NoDup (map getName l) ->
  In s l ->
  getDynamicProperty (world mk) (getName s) = Throws
  \/ getDynamicProperty (world mk) (getName s) = Returns None ->
  dynamicProperties (world (registerAll l mk)) !! getName s = Some (zeroValue (getType s)).
Proof.
  intros Hnd Hin Hread. unfold getDynamicProperty in Hread.
  destruct (readThrows (getName s) true) eqn:Hr.
  - rewrite (registerAll_throwing _ _ _ Hr).
    rewrite (findType_unique (rev l) s); [reflexivity | |].
    + rewrite List.map_rev. apply List.NoDup_rev. exact Hnd.
    + apply List.in_rev in Hin. exact Hin.
  - rewrite (registerAll_readable _ _ _ Hr).
    destruct (dynamicProperties (world mk) !! getName s) as [v|] eqn:Hv; simpl in Hread.
    + rewrite Hr in Hread. destruct Hread as [Hread | Hread]; discriminate Hread.
    + rewrite (findType_unique l s Hnd Hin). reflexivity.
Qed.

(** C2. [registerToWorld] sets [initialised]. A property that the read finds
    defined keeps its value over any number of passes. A descriptor whose
    read, when the loop reaches it, throws or returns [undefined] has the
    zero of its type stored under its name; that value is what the pass
    leaves there when the read of the name does not throw or no later
    descriptor has the same name. With one descriptor per name, every
    descriptor whose read before the pass throws or returns [undefined] has
    the zero of its type under its name after the pass. A second pass leaves
    the properties as the first left them. *)
Theorem registerToWorld_idempotent mk :
  initialised (registerToWorld mk) = true
  /\ (forall (n : nat) (store : string) (v : Value),
         getDynamicProperty (world mk) store = Returns (Some v) ->
         getDynamicProperty (world (Nat.iter n registerToWorld mk)) store = Returns (Some v))
  /\ (forall (pre post : list Store) (s : Store),
         registerdStores mk = pre ++ s :: post ->
         getDynamicProperty (world (registerAll pre mk)) (getName s) = Throws
         \/ getDynamicProperty (world (registerAll pre mk)) (getName s) = Returns None ->
         dynamicProperties (world (registerAll (pre ++ [s]) mk)) !! getName s =
         Some (zeroValue (getType s))
         /\ (readThrows (getName s) true = false \/ ~ In (getName s) (map getName post) ->
             dynamicProperties (world (registerToWorld mk)) !! getName s =
             Some (zeroValue (getType s))))
  /\ (List.NoDup (map getName (registerdStores mk)) ->
      forall s : Store,
        In s (registerdStores mk) ->
        getDynamicProperty (world mk) (getName s) = Throws
        \/ getDynamicProperty (world mk) (getName s) = Returns None ->
        dynamicProperties (world (registerToWorld mk)) !! getName s =
        Some (zeroValue (getType s)))
  /\ dynamicProperties (world (registerToWorld (registerToWorld mk))) =
     dynamicProperties (world (registerToWorld mk)).
Proof.
  split; [reflexivity|]. split; [|split; [|split]].
  - intros n store v. apply registerToWorld_keeps.
  - intros pre post s Hstores Hread.
    assert (Hzero : dynamicProperties (world (registerAll (pre ++ [s]) mk)) !! getName s =
                    Some (zeroValue (getType s))).
    { rewrite registerAll_snoc. apply registerOne_writes. exact Hread. }
    split; [exact Hzero|].
    intros Hlast. unfold registerToWorld. simpl. rewrite Hstores.
    replace (pre ++ s :: post) with ((pre ++ [s]) ++ post)
      by (rewrite <- app_assoc; reflexivity).
    rewrite registerAll_app. destruct Hlast as [Hr | Hfresh].
    + rewrite (registerAll_readable _ _ _ Hr), Hzero. reflexivity.
    + rewrite (registerAll_untouched _ _ _ Hfresh). exact Hzero.
  - intros Hnd s Hin Hread. unfold registerToWorld. simpl.
    apply registerAll_zero_unique; assumption.
  - unfold registerToWorld. simpl.
    rewrite registerAll_stores, registerAll_withInitialised. apply registerAll_twice.
Qed.

(** ** The words of a chat message *)

Lemma split_not_nil (sep : ascii) (s : string) : JS.split sep s <> [].
Proof.
  destruct s as [|c rest]; simpl; [discriminate|].
  destruct (Ascii.eqb c sep); [discriminate|].
  destruct (JS.split sep rest); discriminate.
Qed.

(** A text without the separator is one word. *)
Lemma split_word (sep : ascii) (a : string) :
  JS.has sep a = false -> JS.split sep a = [a].
Proof.
  induction a as [|c a IH]; simpl; [reflexivity|].
  intros Hhas. apply orb_false_iff in Hhas as [Hc Ha].
  rewrite Hc, (IH Ha). reflexivity.
Qed.

(** The first word ends at the first separator. *)
Lemma split_app (sep : ascii) (a b : string) :
  JS.has sep a = false ->
  JS.split sep (a +:+ String sep b) = a :: JS.split sep b.
Proof.
  induction a as [|c a IH]; simpl.
  - intros _. rewrite Ascii.eqb_refl. reflexivity.
  - intros Hhas. apply orb_false_iff in Hhas as [Hc Ha].
    rewrite Hc, (IH Ha). reflexivity.
Qed.

(** A message is its command, or its command, a space and the rest. *)
Lemma commandOf_cases (message : string) :
  message = commandOf message
  \/ exists rest : string, message = commandOf message +:+ String JS.space rest.
Proof.
  unfold commandOf, JS.index. induction message as [|c m IH]; simpl.
  - left. reflexivity.
  - destruct (Ascii.eqb_spec c JS.space) as [E | Hne]; simpl.
    + right. exists m. rewrite E. reflexivity.
    + destruct (JS.split JS.space m) as [|tok toks] eqn:Hs.
      * contradiction (split_not_nil _ _ Hs).
      * simpl in *. destruct IH as [IH | [rest IH]].
        -- left. rewrite <- IH. reflexivity.
        -- right. exists rest. rewrite IH at 1. reflexivity.
Qed.

Ltac command_cases message Hcmd :=
  let rest := fresh "rest" in
  let E := fresh "E" in
  destruct (commandOf_cases message) as [E | [rest E]];
  rewrite Hcmd in E; rewrite E; reflexivity.

Lemma set_not_listStores (message : string) :
  commandOf message = "!set" -> JS.startsWith message "!listStores" = false.
Proof. intros Hcmd. command_cases message Hcmd. Qed.

Lemma deleteStores_not_listStores (message : string) :
  commandOf message = "!deleteStores" -> JS.startsWith message "!listStores" = false.
Proof. intros Hcmd. command_cases message Hcmd. Qed.

Lemma confirm_not_listStores (message : string) :
  commandOf message = "!deleteStoresConfirm" ->
  JS.startsWith message "!listStores" = false.
Proof. intros Hcmd. command_cases message Hcmd. Qed.

(** Of the blocks of [chatCommands], a [!set] message runs [commandSet] only. *)
Lemma chatCommands_set (message : string) mk :
  commandOf message = "!set" ->
  chatCommands message mk = finish (commandSet (JS.split JS.space message) mk).
Proof.
  intros Hcmd. unfold chatCommands.
  rewrite Hcmd, (set_not_listStores _ Hcmd). simpl.
  destruct (commandSet (JS.split JS.space message) mk) as [mk' | mk']; simpl;
    [|reflexivity].
  destruct (secondWarning mk'); reflexivity.
Qed.

(** ** The deletion of the stores *)

Lemma chatCommands_confirm_idle (message : string) mk :
  commandOf message = "!deleteStoresConfirm" ->
  secondWarning mk = false ->
  chatCommands message mk = mk.
Proof.
  intros Hcmd Hidle. unfold chatCommands.
  rewrite Hcmd, (confirm_not_listStores _ Hcmd). simpl.
  rewrite Hidle. reflexivity.
Qed.

Lemma chatCommands_confirm_armed (message : string) mk :
  commandOf message = "!deleteStoresConfirm" ->
  secondWarning mk = true ->
  chatCommands message mk = commandDeleteStoresConfirm mk.
Proof.
  intros Hcmd Harmed. unfold chatCommands.
  rewrite Hcmd, (confirm_not_listStores _ Hcmd). simpl.
  rewrite Harmed. reflexivity.
Qed.

(** C3. A [!deleteStoresConfirm] received while the flag is down changes
    nothing. [!deleteStores] sends the two warnings and raises the flag. A
    [!deleteStoresConfirm] received while the flag is up announces the
    registered stores, clears every dynamic property of the world, registered
    or not, and lowers the flag, so that the same command received right after
    it changes nothing. *)
Theorem delete_requires_confirmation (message : string) mk :
  (commandOf message = "!deleteStoresConfirm" -> secondWarning mk = false ->
   chatCommands message mk = mk)
  /\ (commandOf message = "!deleteStores" ->
      chatCommands message mk =
      withSecondWarning true
        (withWorld (sendMessage "If you are sure, type !deleteStoresConfirm")
           (withWorld (sendMessage
              "ARE YOU SURE YOU WANT TO DELETE ALL STORES? THIS COULD CAUSE ISSUES") mk))
      /\ secondWarning (chatCommands message mk) = true
      /\ dynamicProperties (world (chatCommands message mk)) = dynamicProperties (world mk))
  /\ (commandOf message = "!deleteStoresConfirm" -> secondWarning mk = true ->
      chatCommands message mk = commandDeleteStoresConfirm mk
      /\ dynamicProperties (world (chatCommands message mk)) = ∅
      /\ secondWarning (chatCommands message mk) = false
      /\ chatCommands message (chatCommands message mk) = chatCommands message mk).
Proof.
  split; [|split].
  - apply chatCommands_confirm_idle.
  - intros Hcmd.
    assert (E : chatCommands message mk = commandDeleteStores mk).
    { unfold chatCommands.
      rewrite Hcmd, (deleteStores_not_listStores _ Hcmd). reflexivity. }
    rewrite E. repeat split.
  - intros Hcmd Harmed. rewrite (chatCommands_confirm_armed _ _ Hcmd Harmed).
    repeat split.
    apply chatCommands_confirm_idle; [exact Hcmd | reflexivity].
Qed.

(** ** [!set] *)

Lemma commandSet_outcome (store value : string) (more : list string) mk (T : StoreType) :
  findType (registerdStores mk) store = Some T ->
  finish (commandSet ("!set" :: store :: value :: more) mk) = setOutcome T store value mk.
Proof.
  intros Hfind. unfold commandSet, getStores. simpl. rewrite Hfind.
  unfold setOutcome, coerceAndSet. destruct T.
  - rewrite (set_accepts mk store (VString value) StoreType_string Hfind eq_refl).
    reflexivity.
  - destruct (is_nan (Number value)); [reflexivity|].
    rewrite (set_accepts mk store (VNumber (Number value)) StoreType_number Hfind eq_refl).
    reflexivity.
  - rewrite (set_accepts mk store (VBoolean (String.eqb (JS.toLowerCase value) "true"))
               StoreType_boolean Hfind eq_refl).
    reflexivity.
Qed.

(** The words of [!set store value] and of [!set store value hint]. *)
Lemma split_set_message (store value : string) :
  JS.has JS.space store = false ->
  JS.has JS.space value = false ->
  JS.split JS.space ("!set " +:+ store +:+ " " +:+ value) = ["!set"; store; value]
  /\ forall hint : string,
      JS.split JS.space ("!set " +:+ store +:+ " " +:+ value +:+ " " +:+ hint)
      = "!set" :: store :: value :: JS.split JS.space hint.
Proof.
  intros Hstore Hvalue. split; [|intros hint].
  - change ("!set " +:+ store +:+ " " +:+ value)
      with ("!set" +:+ String JS.space (store +:+ String JS.space value)).
    rewrite split_app by reflexivity.
    rewrite (split_app _ _ _ Hstore), (split_word _ _ Hvalue). reflexivity.
  - change ("!set " +:+ store +:+ " " +:+ value +:+ " " +:+ hint)
      with ("!set" +:+ String JS.space
              (store +:+ String JS.space (value +:+ String JS.space hint))).
    rewrite split_app by reflexivity.
    rewrite (split_app _ _ _ Hstore), (split_app _ _ _ Hvalue). reflexivity.
Qed.

(** C7. For a message whose words are [!set], a store, a value and whatever
    follows, and a store that the registry resolves to the declared type [T],
    the outcome is decided by [T], the store and the value alone, so that
    the words after the value change nothing: a string is set as it is; a
    number is set to [Number(value)], or, when that is [NaN], the message
    that the text cannot be parsed is sent and nothing is queued or stored; a
    boolean is set to whether the lowered text is ["true"]. *)
Theorem set_command_coercion (message store value : string) (more : list string) mk
    (T : StoreType) :
  JS.split JS.space message = "!set" :: store :: value :: more ->
  findType (registerdStores mk) store = Some T ->
  chatCommands message mk = setOutcome T store value mk
  /\ (forall (message' : string) (more' : list string),
         JS.split JS.space message' = "!set" :: store :: value :: more' ->
         chatCommands message' mk = chatCommands message mk)
  /\ (T = StoreType_number -> is_nan (Number value) = true ->
      chatCommands message mk =
      withWorld (sendMessage ("Can't parse " +:+ value +:+ " as a number")) mk
      /\ runQueue (world (chatCommands message mk)) = runQueue (world mk)
      /\ dynamicProperties (world (chatCommands message mk)) =
         dynamicProperties (world mk)).
Proof.
  intros Hwords Hfind.
  assert (Hall : forall (m : string) (l : list string),
             JS.split JS.space m = "!set" :: store :: value :: l ->
             chatCommands m mk = setOutcome T store value mk).
  { intros m l Hm.
    rewrite chatCommands_set by (unfold commandOf; rewrite Hm; reflexivity).
    rewrite Hm. apply commandSet_outcome. exact Hfind. }
  split; [|split].
  - exact (Hall message more Hwords).
  - intros message' more' Hwords'.
    rewrite (Hall message' more' Hwords'), (Hall message more Hwords). reflexivity.
  - intros -> Hnan. rewrite (Hall message more Hwords).
    unfold setOutcome. rewrite Hnan. repeat split.
Qed.

(** ** A name registered twice *)








End StoreProperties.

(** ** The theorems at work *)

Import Example.

Example five_plus_one : (5 + 1)%float = 6%float.
Proof. reflexivity. Qed.

Example lowered_true :
  map (fun s => String.eqb (JS.toLowerCase s) "true") ["true"; "TRUE"; "tRuE"; "yes"; "1"; ""]
  = [true; true; true; false; false; false].
Proof. reflexivity. Qed.

Example split_examples :
  JS.split JS.space "!set level 12" = ["!set"; "level"; "12"]
  /\ JS.split JS.space "a  b " = ["a"; ""; "b"; ""]
  /\ JS.split JS.space "" = [""].
Proof. repeat split. Qed.

(** The example of the specification: a number store that is registered,
    initialised and incremented. *)
Example level_store :
  let mk := registerToWorld (keeper [("level", StoreType_number)] emptyWorld) in
  get "level" mk = (Some (VNumber 0), mk)
  /\ fst (get "level" (withWorld flush (increment "level" mk))) = Some (VNumber 1).
Proof. vm_compute. split; reflexivity. Qed.

Lemma set_type_safety_witness :
  let mk := keeper [("level", StoreType_number)] emptyWorld in
  dynamicProperties (flush (world (set "level" (VNumber 5) mk))) !! "level"
  = Some (VNumber 5)
  /\ set "level" (VString "five") mk =
     withWorld (sendMessage "Store level is not of type string") mk
  /\ set "other" (VNumber 5) mk =
     withWorld (sendMessage "Store other is not of type number") mk.
Proof.
  intros mk. split; [|split].
  - destruct (set_type_safety mk "level" (VNumber 5)) as (Hreg & _ & _).
    apply (Hreg StoreType_number); reflexivity.
  - destruct (set_type_safety mk "level" (VString "five")) as (_ & Hbad & _).
    apply Hbad. right. exists StoreType_number. split; [reflexivity | discriminate].
  - destruct (set_type_safety mk "other" (VNumber 5)) as (_ & Hbad & _).
    apply Hbad. left. reflexivity.
Defined.

Lemma set_is_deferred_witness :
  let mk := keeper [("level", StoreType_number)] (worldWith "level" (VNumber 0)) in
  fst (get "level" mk) = Some (VNumber 0)
  /\ fst (get "level" (set "level" (VNumber 5) mk)) = fst (get "level" mk)
  /\ fst (get "level" (withWorld flush (set "level" (VNumber 5) mk))) = Some (VNumber 5).
Proof.
  intros mk.
  destruct (set_is_deferred mk "level" (VNumber 5) StoreType_number eq_refl eq_refl)
    as (_ & _ & Hget & Hflush).
  split; [vm_compute; reflexivity|]. split; [exact Hget|].
  apply Hflush. reflexivity.
Defined.

(** C5, as stated, fails: on this host the read of a name with a space in it
    throws, and [get] yields no value without sending the message that the
    store is not defined. *)
Lemma get_throw_sends_nothing :
  let mk := new emptyWorld in
  getDynamicProperty (world mk) "current level" = Throws
  /\ get "current level" mk = (None, mk)
  /\ messages (world (snd (get "current level" mk))) = [].
Proof. repeat split. Qed.

Lemma get_absence_or_value_witness :
  get "current level" (new emptyWorld) = (None, new emptyWorld)
  /\ get "name" (new emptyWorld) =
     (None, withWorld (sendMessage "Store name is not defined") (new emptyWorld))
  /\ get "name" (new (worldWith "name" (VString ""))) =
     (Some (VString ""), new (worldWith "name" (VString ""))).
Proof.
  split; [|split].
  - apply (proj1 (get_absence_or_value (new emptyWorld) "current level")). reflexivity.
  - apply (proj1 (proj2 (get_absence_or_value (new emptyWorld) "name"))). reflexivity.
  - apply (proj2 (proj2 (get_absence_or_value (new (worldWith "name" (VString ""))) "name"))).
    vm_compute. reflexivity.
Defined.

(** C9, as stated, fails: a name that is not registered but under which the
    world holds a value is read by [get] like any other. *)
Lemma get_ignores_registry :
  let mk := new (worldWith "ghost" (VNumber 7)) in
  findType (registerdStores mk) "ghost" = None
  /\ get "ghost" mk = (Some (VNumber 7), mk)
  /\ fst (get "ghost" mk) <> None.
Proof.
  intros mk.
  assert (E : get "ghost" mk = (Some (VNumber 7), mk)) by (vm_compute; reflexivity).
  split; [reflexivity|]. split; [exact E|]. rewrite E. discriminate.
Qed.

Lemma unregistered_name_witness :
  let mk := new (worldWith "ghost" (VNumber 7)) in
  set "ghost" (VNumber 8) mk = withWorld (sendMessage "Store ghost is not of type number") mk
  /\ get "ghost" mk = (Some (VNumber 7), mk)
  /\ get "nobody" mk = (None, withWorld (sendMessage "Store nobody is not defined") mk)
  /\ get "no body" mk = (None, mk).
Proof.
  intros mk.
  destruct (unregistered_name mk "ghost" eq_refl) as (Hset & _ & _ & Hsome & _).
  destruct (unregistered_name mk "nobody" eq_refl) as (_ & _ & Hnone & _).
  destruct (unregistered_name mk "no body" eq_refl) as (_ & Hthrows & _).
  split; [apply Hset|]. split; [|split].
  - apply Hsome; [vm_compute; reflexivity | reflexivity].
  - apply Hnone. vm_compute. reflexivity.
  - apply Hthrows. vm_compute. reflexivity.
Defined.

(** C6, as stated, fails twice. On a store that was never initialised
    [increment] is not silent: the message of [get] is sent. And a number
    held under a name that is registered as a string is not incremented. *)
Lemma increment_not_always_silent :
  (let mk := keeper [("level", StoreType_number)] emptyWorld in
   getDynamicProperty (world mk) "level" = Returns None
   /\ messages (world mk) = []
   /\ messages (world (increment "level" mk)) = ["Store level is not defined"])
  /\ (let mk := keeper [("name", StoreType_string)] (worldWith "name" (VNumber 5)) in
      getDynamicProperty (world mk) "name" = Returns (Some (VNumber 5))
      /\ increment "name" mk =
         withWorld (sendMessage "Store name is not of type number") mk
      /\ dynamicProperties (flush (world (increment "name" mk))) !! "name"
         = Some (VNumber 5)).
Proof. vm_compute. repeat split. Qed.

Lemma increment_spec_witness :
  let mk := keeper [("level", StoreType_number); ("name", StoreType_string)]
              (worldWith "level" (VNumber 5)) in
  dynamicProperties (flush (world (increment "level" mk))) !! "level" = Some (VNumber 6)
  /\ increment "" mk = mk
  /\ increment "name" mk = withWorld (sendMessage "Store name is not defined") mk.
Proof.
  intros mk.
  destruct (increment_spec mk "level") as (Hnum & _).
  destruct (increment_spec mk "") as (_ & _ & Hthrows & _).
  destruct (increment_spec mk "name") as (_ & _ & _ & Hundef).
  split; [|split].
  - destruct (Hnum 5%float) as [Hplus _]; [vm_compute; reflexivity|].
    apply Hplus. reflexivity.
  - apply Hthrows. reflexivity.
  - apply Hundef. vm_compute. reflexivity.
Defined.

Lemma registerToWorld_idempotent_witness :
  let mk := keeper [("level", StoreType_number); ("name", StoreType_string);
                    ("done", StoreType_boolean)]
              (worldWith "level" (VNumber 3)) in
  getDynamicProperty (world (Nat.iter 2 registerToWorld mk)) "level"
  = Returns (Some (VNumber 3))
  /\ dynamicProperties (world (registerToWorld mk)) !! "name" = Some (VString "")
  /\ dynamicProperties (world (registerToWorld mk)) !! "done" = Some (VBoolean false).
Proof.
  intros mk.
  destruct (registerToWorld_idempotent mk) as (_ & Hkeep & Hzero & Hunique & _).
  split; [|split].
  - apply Hkeep. vm_compute. reflexivity.
  - destruct (Hzero [mkStore StoreType_number "level"] [mkStore StoreType_boolean "done"]
                (mkStore StoreType_string "name") eq_refl) as [_ Hfinal].
    + right. vm_compute. reflexivity.
    + apply Hfinal. left. reflexivity.
  - apply (Hunique ltac:(repeat constructor; simpl; intuition discriminate)
                   (mkStore StoreType_boolean "done")).
    + simpl. tauto.
    + right. vm_compute. reflexivity.
Defined.

Lemma delete_requires_confirmation_witness :
  let mk := keeper [("level", StoreType_number)] (worldWith "other" (VBoolean true)) in
  chatCommands "!deleteStoresConfirm" mk = mk
  /\ secondWarning (chatCommands "!deleteStores" mk) = true
  /\ dynamicProperties
       (world (chatCommands "!deleteStoresConfirm" (chatCommands "!deleteStores" mk))) = ∅
  /\ chatCommands "!deleteStoresConfirm"
       (chatCommands "!deleteStoresConfirm" (chatCommands "!deleteStores" mk))
     = chatCommands "!deleteStoresConfirm" (chatCommands "!deleteStores" mk).
Proof.
  intros mk.
  destruct (delete_requires_confirmation "!deleteStoresConfirm" mk) as (Hidle & _ & _).
  destruct (delete_requires_confirmation "!deleteStores" mk) as (_ & Harm & _).
  destruct (Harm eq_refl) as (_ & Hflag & _).
  destruct (delete_requires_confirmation "!deleteStoresConfirm"
              (chatCommands "!deleteStores" mk)) as (_ & _ & Hclear).
  destruct (Hclear eq_refl Hflag) as (_ & Hempty & _ & Hagain).
  split; [apply Hidle; reflexivity|]. split; [exact Hflag|]. split; assumption.
Defined.

Lemma set_command_coercion_witness :
  let mk := keeper [("level", StoreType_number); ("done", StoreType_boolean)] emptyWorld in
  chatCommands "!set level 12 string" mk = chatCommands "!set level 12" mk
  /\ runQueue (world (chatCommands "!set level 12 string" mk))
     = [SetDynamicProperty "level" (VNumber 12)]
  /\ chatCommands "!set level twelve number" mk
     = withWorld (sendMessage "Can't parse twelve as a number") mk
  /\ runQueue (world (chatCommands "!set done TRUE" mk))
     = [SetDynamicProperty "done" (VBoolean true)].
Proof.
  intros mk.
  destruct (set_command_coercion "!set level 12" "level" "12" [] mk StoreType_number
              eq_refl eq_refl) as (Hshort & Hsame & _).
  destruct (set_command_coercion "!set level twelve number" "level" "twelve" ["number"] mk
              StoreType_number eq_refl eq_refl) as (_ & _ & Hnan).
  destruct (set_command_coercion "!set done TRUE" "done" "TRUE" [] mk StoreType_boolean
              eq_refl eq_refl) as (Hbool & _ & _).
  assert (Hlong : chatCommands "!set level 12 string" mk = chatCommands "!set level 12" mk)
    by (apply (Hsame "!set level 12 string" ["string"]); reflexivity).
  split; [exact Hlong|].
  split; [rewrite Hlong, Hshort; reflexivity|].
  split; [apply Hnan; reflexivity|].
  rewrite Hbool. reflexivity.
Defined.

(** On a host that cannot read a name before a value is stored under it, the
    store of the specification is registered and incremented all the same. *)
Example level_store_strict :
  let mk := keeper [("level", StoreType_number)] emptyWorld in
  @get strict "level" mk = (None, mk)
  /\ @get strict "level" (@registerToWorld strict mk)
     = (Some (VNumber 0), @registerToWorld strict mk)
  /\ @registerToWorld strict (@registerToWorld strict mk) = @registerToWorld strict mk.
Proof. vm_compute. repeat split. Qed.


(** * Properties of level 3 *)

Module Level3Facts.

Import Level3.

Section CheckCompletion.
Context `{Host}.

Lemma Vector3Eqb_eq (a b : Vector3) : Vector3Eqb a b = true <-> a = b.
Proof.
  unfold Vector3Eqb. rewrite !andb_true_iff, !Z.eqb_eq.
  destruct a, b; simpl. split.
  - intros [[-> ->] ->]. reflexivity.
  - intros E. injection E as -> -> ->. auto.
Qed.

Lemma looseEq_true (a : option string) (b : string) : looseEq a b = true <-> a = Some b.
Proof.
  destruct a as [s|]; simpl.
  - rewrite String.eqb_eq. split; congruence.
  - split; discriminate.
Qed.

Lemma isOutOfBounds_true (g : Game) : isOutOfBounds g = true <-> onWater g.
Proof. unfold isOutOfBounds, onWater, getAgentLocation. apply looseEq_true. Qed.

Lemma isOutOfBounds_false (g : Game) : isOutOfBounds g = false <-> ~ onWater g.
Proof. rewrite <- isOutOfBounds_true. symmetry. apply not_true_iff_false. Qed.

Section Fold.
Variable g : Game.

Let step (isComplete : bool) (condition : Condition) : bool :=
  if negb (looseEq (getBlock (getDimension "Overworld") (position condition) g)
                   (block condition))
  then false else isComplete.

Lemma fold_step_false (l : list Condition) : fold_left step l false = false.
Proof.
  induction l as [|c l IH]; simpl; [reflexivity|].
  unfold step at 2. rewrite Tauto.if_same. exact IH.
Qed.

Lemma fold_step_true (l : list Condition) :
  fold_left step l true = true
  <-> Forall (fun c => getBlock (getDimension "Overworld") (position c) g = Some (block c)) l.
Proof.
  induction l as [|c l IH]; simpl.
  - split; [constructor | reflexivity].
  - unfold step at 2.
    destruct (looseEq (getBlock (getDimension "Overworld") (position c) g) (block c)) eqn:E;
      simpl.
    + rewrite IH. apply looseEq_true in E. split.
      * intros Hl. constructor; assumption.
      * intros Hl. inversion Hl. assumption.
    + rewrite fold_step_false. split; [discriminate|].
      intros Hl. inversion Hl as [|? ? Hc _]. apply looseEq_true in Hc. congruence.
Qed.

End Fold.

Lemma isComplete_true (g : Game) : isComplete g = true <-> conditionsHold g.
Proof. unfold isComplete, conditionsHold. apply fold_step_true. Qed.

Lemma isComplete_false (g : Game) : isComplete g = false <-> ~ conditionsHold g.
Proof. rewrite <- isComplete_true. symmetry. apply not_true_iff_false. Qed.

Lemma fillBlocks_places (d : string) (p : Vector3) (b : string) (g : Game) :
  getBlock d p (fillBlocks d p b g) = Some b.
Proof.
  unfold getBlock, fillBlocks. simpl. rewrite String.eqb_refl.
  rewrite (proj2 (Vector3Eqb_eq p p) eq_refl). reflexivity.
Qed.

(** C4, amended. (a) When every condition finds its block and the block
    under the agent is not water, [checkCompletion] returns [true] and
    changes nothing. (b) When the block under the agent is water, it moves
    the agent to the start, shows the out-of-bounds texts and returns
    [false]. (c) When some condition fails, the block under the agent is not
    water and the agent is at the end position, it moves the agent to the
    start, shows the texts for a wrong arrangement, puts a redstone block at
    the reset position and returns nothing. Otherwise it returns nothing and
    changes nothing. *)
Theorem checkCompletion_three_way (g : Game) :
  (conditionsHold g -> ~ onWater g -> checkCompletion g = (Some true, g))
  /\ (onWater g ->
      checkCompletion g = (Some false, afterOutOfBounds g)
      /\ agentLocation (afterOutOfBounds g) = level3StartPosition
      /\ title (afterOutOfBounds g) = Some ("%message.level.outofbounds", 2.5%float)
      /\ blocks (afterOutOfBounds g) = blocks g)
  /\ (~ conditionsHold g -> ~ onWater g -> agentLocation g = Level3EndPosition ->
      checkCompletion g = (None, afterIncorrect g)
      /\ agentLocation (afterIncorrect g) = level3StartPosition
      /\ title (afterIncorrect g) = Some ("%message.level.incorrect", 2.5%float)
      /\ getBlock (getDimension "overworld") level3ResetCommandBlockPos (afterIncorrect g)
         = Some RedstoneBlock)
  /\ (~ conditionsHold g -> ~ onWater g -> agentLocation g <> Level3EndPosition ->
      checkCompletion g = (None, g)).
Proof.
  unfold checkCompletion. split; [|split; [|split]].
  - intros Hc Hw. apply isComplete_true in Hc. apply isOutOfBounds_false in Hw.
    rewrite Hc, Hw. reflexivity.
  - intros Hw. apply isOutOfBounds_true in Hw. rewrite Hw, andb_false_r.
    repeat split.
  - intros Hc Hw Hend. apply isComplete_false in Hc. apply isOutOfBounds_false in Hw.
    rewrite Hc, Hw. simpl.
    unfold isAgentAt. rewrite (proj2 (Vector3Eqb_eq _ _) Hend).
    repeat split. apply fillBlocks_places.
  - intros Hc Hw Hend. apply isComplete_false in Hc. apply isOutOfBounds_false in Hw.
    rewrite Hc, Hw. simpl.
    unfold isAgentAt. destruct (Vector3Eqb (agentLocation g) Level3EndPosition) eqn:E;
      [|reflexivity].
    apply Vector3Eqb_eq in E. contradiction.
Qed.

End CheckCompletion.

End Level3Facts.

(** ** Level 3 at work *)

Import Level3 Example.

(** C4, as stated, fails in (c): no condition is met and the agent stands on
    the end position, but the block under it is water, and [checkCompletion]
    returns [false] and places no redstone block. *)
Lemma end_position_over_water :
  isComplete drowned = false
  /\ agentLocation drowned = Level3EndPosition
  /\ fst (checkCompletion drowned) = Some false
  /\ getBlock (getDimension "overworld") level3ResetCommandBlockPos
       (snd (checkCompletion drowned)) = Some "minecraft:stone".
Proof. repeat split. Qed.

Lemma checkCompletion_three_way_witness :
  checkCompletion solved = (Some true, solved)
  /\ checkCompletion drowned = (Some false, afterOutOfBounds drowned)
  /\ checkCompletion arrived = (None, afterIncorrect arrived)
  /\ getBlock (getDimension "overworld") level3ResetCommandBlockPos (afterIncorrect arrived)
     = Some RedstoneBlock.
Proof.
  destruct (Level3Facts.checkCompletion_three_way solved) as (Htrue & _).
  destruct (Level3Facts.checkCompletion_three_way drowned) as (_ & Hfalse & _).
  destruct (Level3Facts.checkCompletion_three_way arrived) as (_ & _ & Hnone & _).
  assert (Hstone : ~ onWater arrived) by discriminate.
  assert (Hwrong : ~ conditionsHold arrived).
  { apply Level3Facts.isComplete_false. reflexivity. }
  destruct (Hnone Hwrong Hstone eq_refl) as (Hc & _ & _ & Hblock).
  split; [|split; [|split]].
  - apply Htrue; [|discriminate].
    apply Level3Facts.isComplete_true. reflexivity.
  - apply Hfalse. reflexivity.
  - exact Hc.
  - exact Hblock.
Defined.

(** * Further properties of the store *)

Import Contract.

Section StoreContract.
Context `{Runtime}.

Implicit Types (mk : Mindkeeper) (w : World) (store : string) (value : Value).

(** ** Methods that only talk *)

Lemma say_nil mk : say [] mk = mk.
Proof.
  destruct mk as [stores [properties chat queue] init log flag].
  unfold say, withWorld. simpl. rewrite app_nil_r. reflexivity.
Qed.

Lemma say_say (a b : list string) mk : say b (say a mk) = say (a ++ b) mk.
Proof. unfold say, withWorld. simpl. rewrite app_assoc. reflexivity. Qed.

Lemma fold_say {A} (f : A -> string) (l : list A) mk :
  fold_left (fun mk a => withWorld (sendMessage (f a)) mk) l mk = say (map f l) mk.
Proof.
  revert mk. induction l as [|a l IH]; intros mk; simpl.
  - symmetry. apply say_nil.
  - rewrite IH. change (withWorld (sendMessage (f a)) mk) with (say [f a] mk).
    apply say_say.
Qed.

(** X1. [printDebug] sends the lines of the debug log, in their order, and
    changes nothing else; the log is kept, so that printing twice sends it
    twice. *)
Theorem printDebug_says mk :
  printDebug mk = say (debugLog mk) mk
  /\ debugLog (printDebug mk) = debugLog mk
  /\ printDebug (printDebug mk) = say (debugLog mk ++ debugLog mk) mk.
Proof.
  assert (E : forall m, printDebug m = say (debugLog m) m).
  { intros m. unfold printDebug. rewrite (fold_say (fun t => t)), map_id. reflexivity. }
  split; [apply E|]. split; [rewrite E; reflexivity|].
  rewrite (E (printDebug mk)), E. simpl. apply say_say.
Qed.

(** ** More on [registerToWorld] *)

Lemma registerAll_quiet (l : list Store) mk :
  messages (world (registerAll l mk)) = messages (world mk)
  /\ runQueue (world (registerAll l mk)) = runQueue (world mk)
  /\ secondWarning (registerAll l mk) = secondWarning mk
  /\ exists lines : list string,
      debugLog (registerAll l mk) = debugLog mk ++ lines
      /\ length lines <= length l.
Proof.
  unfold registerAll. revert mk. induction l as [|s l IH]; intros mk; simpl.
  - repeat split. exists []. rewrite app_nil_r. split; [reflexivity | simpl; lia].
  - destruct (IH (registerOne mk s)) as (Hm & Hq & Hf & lines & Hl & Hn).
    rewrite Hm, Hq, Hf, Hl, registerOne_eq.
    destruct (getDynamicProperty (world mk) (getName s)) as [|[v|]]; simpl;
      repeat split;
      first [ exists lines; split; [reflexivity | lia]
            | eexists (_ :: lines); split;
              [rewrite <- app_assoc; reflexivity | simpl; lia] ].
Qed.

Lemma findType_In (l : list Store) (s : Store) :
  In s l -> findType l (getName s) <> None.
Proof.
  induction l as [|a l IH]; simpl; [contradiction|].
  intros Hin. rewrite findType_cons.
  destruct (String.eqb_spec (getName a) (getName s)) as [_ | Hne]; [discriminate|].
  destruct Hin as [-> | Hin]; [contradiction | apply IH; exact Hin].
Qed.

Lemma findType_names (l : list Store) (k : string) :
  findType l k <> None <-> In k (map getName l).
Proof.
  induction l as [|a l IH]; simpl.
  - unfold findType. simpl. tauto.
  - rewrite findType_cons.
    destruct (String.eqb_spec (getName a) k) as [E | Hne].
    + split; [left; exact E | discriminate].
    + rewrite IH. tauto.
Qed.

(** A pass over descriptors whose names are all defined changes nothing. *)
Lemma registerAll_skip (l : list Store) mk :
  (forall s : Store, In s l ->
     exists v : Value, getDynamicProperty (world mk) (getName s) = Returns (Some v)) ->
  registerAll l mk = mk.
Proof.
  unfold registerAll. induction l as [|s l IH]; simpl; intros Hall; [reflexivity|].
  assert (E : registerOne mk s = mk).
  { destruct (Hall s) as [v Hv]; [left; reflexivity|].
    unfold registerOne. rewrite Hv. reflexivity. }
  rewrite E. apply IH. intros s' Hin. apply Hall. right. exact Hin.
Qed.

(** X2. [registerToWorld] sends no message and queues nothing; it keeps the
    registry and the confirmation flag; it leaves the properties of the
    names that are not registered as they are; and it adds at most one line
    per descriptor to the debug log. *)
Theorem registerToWorld_frame mk :
  messages (world (registerToWorld mk)) = messages (world mk)
  /\ runQueue (world (registerToWorld mk)) = runQueue (world mk)
  /\ registerdStores (registerToWorld mk) = registerdStores mk
  /\ secondWarning (registerToWorld mk) = secondWarning mk
  /\ (forall k : string,
         findType (registerdStores mk) k = None ->
         dynamicProperties (world (registerToWorld mk)) !! k =
         dynamicProperties (world mk) !! k)
  /\ exists lines : list string,
      debugLog (registerToWorld mk) = debugLog mk ++ lines
      /\ length lines <= length (registerdStores mk).
Proof.
  destruct (registerAll_quiet (registerdStores mk) mk) as (Hm & Hq & Hf & Hlog).
  unfold registerToWorld. simpl.
  split; [exact Hm|]. split; [exact Hq|]. split; [apply registerAll_stores|].
  split; [exact Hf|]. split; [|exact Hlog].
  intros k Hk. apply registerAll_untouched.
  intros Hin. apply findType_names in Hin. contradiction.
Qed.

(** X3. After [registerToWorld], [get] of a registered name whose read does
    not throw yields a value and sends no message: the value that was
    stored, or else the zero of the type the lookup resolves. *)
Theorem registerToWorld_defines mk store (T : StoreType) :
  findType (registerdStores mk) store = Some T ->
  readThrows store true = false ->
  get store (registerToWorld mk) =
  (Some (match dynamicProperties (world mk) !! store with
         | Some v => v
         | None => zeroValue T
         end), registerToWorld mk).
Proof.
  intros Hfind Hr. unfold get, getDynamicProperty.
  assert (E : dynamicProperties (world (registerToWorld mk)) !! store =
              Some (match dynamicProperties (world mk) !! store with
                    | Some v => v
                    | None => zeroValue T
                    end)).
  { unfold registerToWorld. simpl. rewrite (registerAll_readable _ _ _ Hr), Hfind.
    destruct (dynamicProperties (world mk) !! store); reflexivity. }
  rewrite E. simpl. rewrite Hr. reflexivity.
Qed.

(** X4. When the read of no registered name throws once a value is stored
    under it, a second [registerToWorld] changes nothing at all: no property,
    no line of the debug log. *)
Theorem registerToWorld_twice mk :
  (forall s : Store, In s (registerdStores mk) -> readThrows (getName s) true = false) ->
  registerToWorld (registerToWorld mk) = registerToWorld mk.
Proof.
  intros Hread. unfold registerToWorld at 1 2. simpl.
  rewrite registerAll_stores, registerAll_withInitialised.
  rewrite (registerAll_skip (registerdStores mk) (registerAll (registerdStores mk) mk)).
  - reflexivity.
  - intros s Hin. unfold getDynamicProperty.
    rewrite (registerAll_readable _ _ _ (Hread s Hin)).
    destruct (dynamicProperties (world mk) !! getName s) as [v|]; simpl.
    + exists v. rewrite (Hread s Hin). reflexivity.
    + destruct (findType (registerdStores mk) (getName s)) as [T|] eqn:Hfind.
      * exists (zeroValue T). simpl. rewrite (Hread s Hin). reflexivity.
      * contradiction (findType_In _ _ Hin).
Qed.

(** ** The shape of a chat command *)

Lemma commandGet_says (parts : list string) mk :
  commandGet parts mk =
  say (match JS.index parts 1 with
       | Some store =>
           getLines store (getDynamicProperty (world mk) store)
             (display (fst (get store mk)))
       | None => ["Value of undefined is undefined"]
       end) mk.
Proof.
  unfold commandGet. destruct (JS.index parts 1) as [store|]; [|reflexivity].
  unfold get. destruct (getDynamicProperty (world mk) store) as [|[v|]];
    first [reflexivity | exact (say_say [_] [_] mk)].
Qed.

Lemma set_cases mk store value :
  set store value mk =
  if fits (registerdStores mk) store value
  then withWorld (run (SetDynamicProperty store value)) mk
  else say ["Store " +:+ store +:+ " is not of type " +:+ typeof value] mk.
Proof.
  unfold set, fits.
  destruct (differs (findType (registerdStores mk) store) (typeof value)); reflexivity.
Qed.

Lemma fits_found (stores : list Store) store value (T : StoreType) :
  findType stores store = Some T -> typeof value = enumValue T ->
  fits stores store value = true.
Proof.
  intros Hfind Hty. unfold fits. rewrite Hfind.
  apply negb_true_iff, differs_Some. exact Hty.
Qed.

(** [!set] sends lines and queues at most one write, which fits. *)
Lemma commandSet_shape (parts : list string) mk :
  exists (lines : list string) (queued : option Task),
    finish (commandSet parts mk) =
    say lines (match queued with
               | Some t => withWorld (run t) mk
               | None => mk
               end)
    /\ (forall t : Task, queued = Some t -> taskFits (registerdStores mk) t = true).
Proof.
  unfold commandSet, getStores.
  destruct (JS.index parts 1) as [store|];
    [|eexists [_], None; split; [reflexivity | discriminate]].
  destruct (JS.index parts 2) as [value|];
    [|eexists [_], None; split; [reflexivity | discriminate]].
  destruct (findType (registerdStores mk) store) as [T|] eqn:Hfind;
    [|eexists [_], None; split; [reflexivity | discriminate]].
  destruct T; unfold coerceAndSet.
  - rewrite (set_accepts mk store (VString value) StoreType_string Hfind eq_refl).
    eexists [_], (Some _). split; [reflexivity|].
    intros t [= <-]. simpl. apply (fits_found _ _ _ _ Hfind). reflexivity.
  - destruct (is_nan (Number value)).
    + eexists [_], None. split; [reflexivity | discriminate].
    + rewrite (set_accepts mk store (VNumber (Number value)) StoreType_number Hfind eq_refl).
      eexists [_], (Some _). split; [reflexivity|].
      intros t [= <-]. simpl. apply (fits_found _ _ _ _ Hfind). reflexivity.
  - rewrite (set_accepts mk store (VBoolean (String.eqb (JS.toLowerCase value) "true"))
               StoreType_boolean Hfind eq_refl).
    eexists [_], (Some _). split; [reflexivity|].
    intros t [= <-]. simpl. apply (fits_found _ _ _ _ Hfind). reflexivity.
Qed.

Lemma get_not_listStores (message : string) :
  commandOf message = "!get" -> JS.startsWith message "!listStores" = false.
Proof.
  intros Hcmd. destruct (commandOf_cases message) as [E | [rest E]];
    rewrite Hcmd in E; rewrite E; reflexivity.
Qed.

Lemma commandDeleteStores_says mk :
  commandDeleteStores mk =
  say ["ARE YOU SURE YOU WANT TO DELETE ALL STORES? THIS COULD CAUSE ISSUES";
       "If you are sure, type !deleteStoresConfirm"] (withSecondWarning true mk).
Proof.
  unfold commandDeleteStores.
  transitivity (withSecondWarning true
    (say ["If you are sure, type !deleteStoresConfirm"]
       (say ["ARE YOU SURE YOU WANT TO DELETE ALL STORES? THIS COULD CAUSE ISSUES"] mk)));
    [reflexivity|].
  rewrite say_say. reflexivity.
Qed.

(** Every chat message sends some lines and, apart from them, has the effect
    that its first word decides. *)
Lemma chatCommands_shape (message : string) mk :
  exists (lines : list string) (queued : option Task),
    chatCommands message mk = say lines (effect (commandOf message) queued mk)
    /\ (forall t : Task,
           queued = Some t ->
           commandOf message = "!set" /\ taskFits (registerdStores mk) t = true).
Proof.
  destruct (String.eqb_spec (commandOf message) "!get") as [Hget | Hnget].
  { exists (match JS.index (JS.split JS.space message) 1 with
            | Some store =>
                getLines store (getDynamicProperty (world mk) store)
                  (display (fst (get store mk)))
            | None => ["Value of undefined is undefined"]
            end), None.
    split; [|discriminate].
    unfold chatCommands, effect.
    rewrite Hget, (get_not_listStores _ Hget). simpl.
    rewrite commandGet_says. unfold say at 2. simpl.
    destruct (secondWarning mk); reflexivity. }
  destruct (String.eqb_spec (commandOf message) "!set") as [Hset | Hnset].
  { destruct (commandSet_shape (JS.split JS.space message) mk) as (lines & queued & E & Hfit).
    exists lines, queued. split.
    - rewrite (chatCommands_set _ _ Hset), E. unfold effect. rewrite Hset. reflexivity.
    - intros t Ht. split; [exact Hset | exact (Hfit t Ht)]. }
  destruct (String.eqb_spec (commandOf message) "!deleteStores") as [Hdel | Hndel].
  { exists ["ARE YOU SURE YOU WANT TO DELETE ALL STORES? THIS COULD CAUSE ISSUES";
            "If you are sure, type !deleteStoresConfirm"], None.
    split; [|discriminate].
    assert (E : chatCommands message mk = commandDeleteStores mk).
    { unfold chatCommands.
      rewrite Hdel, (deleteStores_not_listStores _ Hdel). reflexivity. }
    rewrite E, commandDeleteStores_says. unfold effect. rewrite Hdel. reflexivity. }
  destruct (String.eqb_spec (commandOf message) "!deleteStoresConfirm") as [Hcon | Hncon].
  { destruct (secondWarning mk) eqn:Hflag.
    - exists (map (fun s => "Deleting " +:+ getName s) (getStores mk)), None.
      split; [|discriminate].
      rewrite (chatCommands_confirm_armed _ _ Hcon Hflag).
      unfold effect, commandDeleteStoresConfirm. rewrite Hcon, Hflag, fold_say. reflexivity.
    - exists [], None. split; [|discriminate].
      rewrite (chatCommands_confirm_idle _ _ Hcon Hflag), say_nil.
      unfold effect. rewrite Hcon, Hflag. reflexivity. }
  exists (if JS.startsWith message "!listStores" then map listLine (getStores mk) else []), None.
  split; [|discriminate].
  apply String.eqb_neq in Hnget, Hnset, Hndel, Hncon.
  unfold chatCommands, effect. rewrite Hnget, Hnset, Hndel, Hncon. simpl.
  destruct (JS.startsWith message "!listStores").
  - unfold commandListStores. rewrite fold_say. unfold say at 1. simpl.
    destruct (secondWarning mk); reflexivity.
  - rewrite say_nil. destruct (secondWarning mk); reflexivity.
Qed.

Lemma chatCommands_get (message : string) mk :
  commandOf message = "!get" ->
  chatCommands message mk = commandGet (JS.split JS.space message) mk.
Proof.
  intros Hget. unfold chatCommands.
  rewrite Hget, (get_not_listStores _ Hget). simpl.
  rewrite commandGet_says. unfold say. simpl.
  destruct (secondWarning mk); reflexivity.
Qed.

(** X5. The confirmation flag after a chat message is decided by the first
    word alone: [!deleteStores] raises it, [!deleteStoresConfirm] lowers it,
    and every other message keeps it as it is, so a raised flag stays raised
    through any number of other commands. *)
Theorem chatCommands_flag (message : string) mk :
  secondWarning (chatCommands message mk) =
  if String.eqb (commandOf message) "!deleteStores" then true
  else if String.eqb (commandOf message) "!deleteStoresConfirm" then false
  else secondWarning mk.
Proof.
  destruct (chatCommands_shape message mk) as (lines & queued & E & _).
  rewrite E. unfold effect.
  destruct (String.eqb (commandOf message) "!deleteStores"); [reflexivity|].
  destruct (String.eqb (commandOf message) "!deleteStoresConfirm"); simpl.
  - destruct (secondWarning mk) eqn:Hflag; [reflexivity|].
    destruct queued; simpl; exact Hflag.
  - destruct queued; reflexivity.
Qed.

(** X6. A chat message never changes the registry, the [initialised] flag or
    the debug log, and never stores a property itself: the properties are
    cleared by [!deleteStoresConfirm] under a raised flag and are the same
    after any other message. Only [!set] queues a write, at most one, and
    only one that fits its store. The chat only grows. *)
Theorem chatCommands_storage (message : string) mk :
  registerdStores (chatCommands message mk) = registerdStores mk
  /\ initialised (chatCommands message mk) = initialised mk
  /\ debugLog (chatCommands message mk) = debugLog mk
  /\ dynamicProperties (world (chatCommands message mk)) =
     (if String.eqb (commandOf message) "!deleteStoresConfirm" && secondWarning mk
      then ∅ else dynamicProperties (world mk))
  /\ (runQueue (world (chatCommands message mk)) = runQueue (world mk)
      \/ commandOf message = "!set"
         /\ exists t : Task,
             runQueue (world (chatCommands message mk)) = runQueue (world mk) ++ [t]
             /\ taskFits (registerdStores mk) t = true)
  /\ exists lines : list string,
      messages (world (chatCommands message mk)) = messages (world mk) ++ lines.
Proof.
  destruct (chatCommands_shape message mk) as (lines & queued & E & Hq).
  rewrite E. unfold effect.
  destruct (String.eqb_spec (commandOf message) "!deleteStores") as [Hdel | _].
  { rewrite Hdel. simpl. repeat split; [left; reflexivity | exists lines; reflexivity]. }
  destruct (String.eqb (commandOf message) "!deleteStoresConfirm" && secondWarning mk).
  { simpl. repeat split; [left; reflexivity | exists lines; reflexivity]. }
  destruct queued as [t|]; simpl.
  - destruct (Hq t eq_refl) as [Hset Hfit].
    repeat split; [right; split; [exact Hset | exists t; split; [reflexivity | exact Hfit]]
                  | exists lines; reflexivity].
  - repeat split; [left; reflexivity | exists lines; reflexivity].
Qed.

(** ** The type contract *)

Lemma worldFits_insert (stores : list Store) (properties : gmap string Value) store value :
  worldFits stores properties ->
  fits stores store value = true ->
  worldFits stores (<[store := value]> properties).
Proof.
  intros Hw Hfit k v Hk Hreg. destruct (String.eqb_spec store k) as [<- | Hne].
  - rewrite lookup_insert_eq in Hk. injection Hk as <-. exact Hfit.
  - rewrite lookup_insert_ne in Hk by exact Hne. exact (Hw k v Hk Hreg).
Qed.

Lemma fold_runTask_fits (stores : list Store) (queue : list Task) w :
  worldFits stores (dynamicProperties w) ->
  queueFits stores queue = true ->
  worldFits stores (dynamicProperties (fold_left (fun w t => runTask t w) queue w)).
Proof.
  revert w. induction queue as [|[store value] queue IH]; intros w Hw Hq; simpl; [exact Hw|].
  simpl in Hq. apply andb_true_iff in Hq as [Hfit Hq].
  apply IH; [|exact Hq]. simpl. apply worldFits_insert; assumption.
Qed.

Lemma typed_say (lines : list string) mk : typed mk -> typed (say lines mk).
Proof. intros Ht. exact Ht. Qed.

Lemma typed_run mk (t : Task) :
  typed mk -> taskFits (registerdStores mk) t = true -> typed (withWorld (run t) mk).
Proof.
  intros [Hw Hq] Hfit. split; [exact Hw|]. simpl.
  unfold queueFits. rewrite forallb_app. simpl.
  fold (queueFits (registerdStores mk) (runQueue (world mk))).
  rewrite Hq, Hfit. reflexivity.
Qed.

Lemma typed_set mk store value : typed mk -> typed (set store value mk).
Proof.
  intros Ht. rewrite set_cases.
  destruct (fits (registerdStores mk) store value) eqn:Hfit.
  - apply typed_run; [exact Ht | exact Hfit].
  - exact Ht.
Qed.

(** X7. The type contract is kept by every way of writing: when the
    properties stored under registered names and the queued writes fit their
    stores, they still do after [set], after [increment], after any chat
    message, and after the host has run the queue, which is then empty. *)
Theorem typed_is_kept mk :
  typed mk ->
  (forall store value, typed (set store value mk))
  /\ (forall store, typed (increment store mk))
  /\ (forall message : string, typed (chatCommands message mk))
  /\ typed (withWorld flush mk)
  /\ runQueue (world (withWorld flush mk)) = [].
Proof.
  intros Ht. split; [|split; [|split; [|split]]].
  - intros store value. apply typed_set. exact Ht.
  - intros store. unfold increment, get.
    destruct (getDynamicProperty (world mk) store) as [|[[s|n|b|x y z]|]];
      first [exact Ht | apply typed_set; exact Ht].
  - intros message.
    destruct (chatCommands_shape message mk) as (lines & queued & E & Hq).
    rewrite E. apply typed_say. unfold effect.
    destruct (String.eqb (commandOf message) "!deleteStores"); [exact Ht|].
    destruct (String.eqb (commandOf message) "!deleteStoresConfirm" && secondWarning mk).
    + split; [|exact (proj2 Ht)]. intros k v Hk. simpl in Hk.
      rewrite lookup_empty in Hk. discriminate Hk.
    + destruct queued as [t|]; [|exact Ht].
      apply typed_run; [exact Ht | exact (proj2 (Hq t eq_refl))].
  - destruct Ht as [Hw Hq]. split.
    + simpl. unfold flush. apply fold_runTask_fits; [exact Hw | exact Hq].
    + simpl. rewrite flush_queue. reflexivity.
  - simpl. apply flush_queue.
Qed.

Lemma typeof_zeroValue (T : StoreType) : typeof (zeroValue T) = enumValue T.
Proof. destruct T; reflexivity. Qed.

Lemma registerAll_fits (stores l : list Store) mk :
  (forall s : Store, In s l -> findType stores (getName s) = Some (getType s)) ->
  worldFits stores (dynamicProperties (world mk)) ->
  worldFits stores (dynamicProperties (world (registerAll l mk))).
Proof.
  unfold registerAll. revert mk. induction l as [|s l IH]; intros mk Hall Hw; simpl;
    [exact Hw|].
  apply IH; [intros s' Hin; apply Hall; right; exact Hin|].
  rewrite registerOne_eq.
  assert (Hfit : fits stores (getName s) (zeroValue (getType s)) = true).
  { apply (fits_found _ _ _ (getType s)); [apply Hall; left; reflexivity|].
    apply typeof_zeroValue. }
  destruct (getDynamicProperty (world mk) (getName s)) as [|[v|]]; simpl;
    first [exact Hw | apply worldFits_insert; assumption].
Qed.

(** X8. With one descriptor per name, [registerToWorld] keeps the type
    contract: every zero it stores fits its store. *)
Theorem registerToWorld_typed mk :
  List.NoDup (map getName (registerdStores mk)) ->
  typed mk ->
  typed (registerToWorld mk).
Proof.
  intros Hnd [Hw Hq].
  destruct (registerAll_quiet (registerdStores mk) mk) as (_ & Hqueue & _).
  unfold typed, registerToWorld. simpl. rewrite registerAll_stores, Hqueue.
  split; [|exact Hq].
  apply registerAll_fits; [|exact Hw].
  intros s Hin. apply findType_unique; assumption.
Qed.

(** ** Writes that meet in the queue *)

Lemma increment_number mk store (n : float) :
  getDynamicProperty (world mk) store = Returns (Some (VNumber n)) ->
  findType (registerdStores mk) store = Some StoreType_number ->
  increment store mk = withWorld (run (SetDynamicProperty store (VNumber (n + 1)%float))) mk.
Proof.
  intros Hread Hfind. unfold increment, get. rewrite Hread.
  exact (set_accepts mk store (VNumber (n + 1)%float) StoreType_number Hfind eq_refl).
Qed.

(** X9. Two calls of [increment] in one callback add one, not two: both read
    the stored number, since the first write is still in the queue. With a
    run of the queue between them they add two. *)
Theorem increment_twice mk store (n : float) :
  getDynamicProperty (world mk) store = Returns (Some (VNumber n)) ->
  findType (registerdStores mk) store = Some StoreType_number ->
  dynamicProperties (flush (world (increment store (increment store mk)))) !! store
  = Some (VNumber (n + 1)%float)
  /\ dynamicProperties
       (flush (world (increment store (withWorld flush (increment store mk))))) !! store
     = Some (VNumber (n + 1 + 1)%float).
Proof.
  intros Hread Hfind.
  assert (Hr : readThrows store true = false).
  { unfold getDynamicProperty in Hread.
    destruct (dynamicProperties (world mk) !! store); simpl in Hread;
      destruct (readThrows store _); congruence. }
  rewrite (increment_number mk store n Hread Hfind). split.
  - rewrite (increment_number _ store n); [| exact Hread | exact Hfind].
    simpl. rewrite !flush_run. apply lookup_insert_eq.
  - assert (Hfirst : dynamicProperties
                       (flush (run (SetDynamicProperty store (VNumber (n + 1)%float)) (world mk)))
                     !! store = Some (VNumber (n + 1)%float))
      by (rewrite flush_run; apply lookup_insert_eq).
    rewrite (increment_number _ store (n + 1)%float); [| |exact Hfind].
    + simpl. rewrite flush_run. apply lookup_insert_eq.
    + simpl. unfold getDynamicProperty. rewrite Hfirst. simpl. rewrite Hr. reflexivity.
Qed.

(** X10. Of two accepted calls of [set] for one store in one callback the
    later wins once the queue has run, and a refused [set] after an accepted
    one does not take the accepted write back. *)
Theorem set_last_wins mk store (first second : Value) :
  fits (registerdStores mk) store first = true ->
  (fits (registerdStores mk) store second = true ->
   dynamicProperties (flush (world (set store second (set store first mk)))) !! store
   = Some second)
  /\ (fits (registerdStores mk) store second = false ->
      dynamicProperties (flush (world (set store second (set store first mk)))) !! store
      = Some first).
Proof.
  intros Hfirst. rewrite (set_cases mk store first), Hfirst. split; intros Hsecond.
  - rewrite set_cases. simpl. rewrite Hsecond. simpl.
    rewrite !flush_run. apply lookup_insert_eq.
  - unfold fits in Hsecond. apply negb_false_iff in Hsecond.
    rewrite (set_rejects (withWorld (run (SetDynamicProperty store first)) mk) store second
               Hsecond).
    simpl. rewrite flush_sendMessage, flush_run. apply lookup_insert_eq.
Qed.

Lemma flush_nothing w : runQueue w = [] -> flush w = w.
Proof. destruct w as [properties chat queue]. simpl. intros ->. reflexivity. Qed.

(** The host runs each queued write once: after a run the queue is
    empty and a second run changes nothing. A run sends no message. *)
Lemma flush_once w :
  runQueue (flush w) = []
  /\ flush (flush w) = flush w
  /\ messages (flush w) = messages w.
Proof.
  split; [apply flush_queue|]. split.
  - apply flush_nothing, flush_queue.
  - unfold flush. rewrite fold_runTask_messages. reflexivity.
Qed.

(** ** The reports of the chat commands *)

Lemma commandOf_split (message command : string) (more : list string) :
  JS.split JS.space message = command :: more -> commandOf message = command.
Proof. intros E. unfold commandOf. rewrite E. reflexivity. Qed.

(** X11. [!get store] changes nothing but the chat. It reports the value the
    world holds; when the world holds nothing it sends the message of [get]
    and then reports [undefined]; when the read throws it reports
    [undefined] alone. *)
Theorem get_command_reports (message store : string) (more : list string) mk :
  JS.split JS.space message = "!get" :: store :: more ->
  (forall v : Value,
      getDynamicProperty (world mk) store = Returns (Some v) ->
      chatCommands message mk =
      say ["Value of " +:+ store +:+ " is " +:+ display (Some v)] mk)
  /\ (getDynamicProperty (world mk) store = Returns None ->
      chatCommands message mk =
      say ["Store " +:+ store +:+ " is not defined";
           "Value of " +:+ store +:+ " is undefined"] mk)
  /\ (getDynamicProperty (world mk) store = Throws ->
      chatCommands message mk = say ["Value of " +:+ store +:+ " is undefined"] mk).
Proof.
  intros Hwords.
  rewrite (chatCommands_get _ _ (commandOf_split _ _ _ Hwords)), Hwords, commandGet_says.
  simpl. unfold get. split; [|split]; [intros v E | intros E | intros E];
    rewrite E; reflexivity.
Qed.

(** X12. Every message that starts with [!listStores], whatever follows,
    sends one line per descriptor, in the order of registration, and changes
    nothing else. *)
Theorem listStores_reports (message : string) mk :
  JS.startsWith message "!listStores" = true ->
  chatCommands message mk = say (map listLine (getStores mk)) mk.
Proof.
  intros Hlist.
  assert (Hget : String.eqb (commandOf message) "!get" = false).
  { apply String.eqb_neq. intros E. rewrite (get_not_listStores _ E) in Hlist.
    discriminate Hlist. }
  assert (Hset : String.eqb (commandOf message) "!set" = false).
  { apply String.eqb_neq. intros E. rewrite (set_not_listStores _ E) in Hlist.
    discriminate Hlist. }
  assert (Hdel : String.eqb (commandOf message) "!deleteStores" = false).
  { apply String.eqb_neq. intros E. rewrite (deleteStores_not_listStores _ E) in Hlist.
    discriminate Hlist. }
  assert (Hcon : String.eqb (commandOf message) "!deleteStoresConfirm" = false).
  { apply String.eqb_neq. intros E. rewrite (confirm_not_listStores _ E) in Hlist.
    discriminate Hlist. }
  unfold chatCommands. rewrite Hget, Hset, Hdel, Hcon, Hlist. simpl.
  unfold commandListStores. rewrite fold_say. unfold listLine, say. simpl.
  destruct (secondWarning mk); reflexivity.
Qed.

(** X13. A [!set] that cannot be carried out says why and does nothing else:
    without a store, without a value, or for a store that is not registered,
    one line is sent and nothing is queued or stored. *)
Theorem set_command_refusals (message : string) mk :
  (JS.split JS.space message = ["!set"] ->
   chatCommands message mk = say ["Please provide a store to set"] mk)
  /\ (forall store : string,
         JS.split JS.space message = ["!set"; store] ->
         chatCommands message mk =
         say ["Please provide a value to set for " +:+ store] mk)
  /\ (forall (store value : string) (more : list string),
         JS.split JS.space message = "!set" :: store :: value :: more ->
         findType (registerdStores mk) store = None ->
         chatCommands message mk = say ["Store " +:+ store +:+ " is not defined"] mk).
Proof.
  split; [|split].
  - intros E. rewrite (chatCommands_set _ _ (commandOf_split _ _ _ E)), E. reflexivity.
  - intros store E. rewrite (chatCommands_set _ _ (commandOf_split _ _ _ E)), E.
    reflexivity.
  - intros store value more E Hfind.
    rewrite (chatCommands_set _ _ (commandOf_split _ _ _ E)), E.
    unfold commandSet, getStores. simpl. rewrite Hfind. reflexivity.
Qed.

(** X14. A message whose first word is none of the four commands and that
    does not start with [!listStores] changes nothing, whether the flag is
    raised or not. *)
Theorem other_messages_ignored (message : string) mk :
  isCommand (commandOf message) = false ->
  JS.startsWith message "!listStores" = false ->
  chatCommands message mk = mk.
Proof.
  unfold isCommand. intros Hcmd Hlist.
  apply orb_false_iff in Hcmd as [Hcmd Hcon].
  apply orb_false_iff in Hcmd as [Hcmd Hdel].
  apply orb_false_iff in Hcmd as [Hget Hset].
  unfold chatCommands. rewrite Hget, Hset, Hdel, Hcon, Hlist. simpl.
  destruct (secondWarning mk); reflexivity.
Qed.

Lemma commandDeleteStoresConfirm_says mk :
  commandDeleteStoresConfirm mk =
  say (map (fun s => "Deleting " +:+ getName s) (getStores mk))
    (withSecondWarning false (withWorld clearDynamicProperties mk)).
Proof. unfold commandDeleteStoresConfirm. rewrite fold_say. reflexivity. Qed.

(** X15. Deleting the stores and registering them again resets them: after a
    confirmed [!deleteStoresConfirm] and a [registerToWorld], a name whose
    read does not throw holds the zero of its registered type, and nothing
    if it is not registered. *)
Theorem delete_then_register (message : string) mk (k : string) :
  commandOf message = "!deleteStoresConfirm" ->
  secondWarning mk = true ->
  readThrows k true = false ->
  dynamicProperties (world (registerToWorld (chatCommands message mk))) !! k
  = zeroValue <$> findType (registerdStores mk) k.
Proof.
  intros Hcmd Hflag Hr.
  rewrite (chatCommands_confirm_armed _ _ Hcmd Hflag), commandDeleteStoresConfirm_says.
  unfold registerToWorld. simpl.
  rewrite (registerAll_readable _ _ _ Hr). simpl. rewrite lookup_empty. reflexivity.
Qed.

End StoreContract.

(** * Further properties of level 3 *)

Module Level3More.

Import Level3 LevelUtils Level3Callbacks.

Section Checks.
Context `{Host}.

(** X16. The result of [checkCompletion] tells the three situations apart:
    it is [true] exactly when every condition finds its block and the agent
    is not over water, [false] exactly when the agent is over water, and
    nothing exactly when some condition fails and the agent is not over
    water. *)
Theorem checkCompletion_result (g : Game) :
  (fst (checkCompletion g) = Some true <-> conditionsHold g /\ ~ onWater g)
  /\ (fst (checkCompletion g) = Some false <-> onWater g)
  /\ (fst (checkCompletion g) = None <-> ~ conditionsHold g /\ ~ onWater g).
Proof.
  rewrite <- Level3Facts.isComplete_false, <- Level3Facts.isComplete_true,
    <- Level3Facts.isOutOfBounds_false, <- Level3Facts.isOutOfBounds_true.
  unfold checkCompletion.
  destruct (isComplete g), (isOutOfBounds g); simpl;
    try destruct (isAgentAt Level3EndPosition g); simpl;
    repeat split; intros; try discriminate; try tauto;
    repeat match goal with H : _ /\ _ |- _ => destruct H end; discriminate.
Qed.

(** X17. [checkCompletion] changes nothing when it returns [true]; it never
    changes a block other than the reset command block of the overworld; and
    it leaves the agent where it is or puts it on the start position. *)
Theorem checkCompletion_frame (g : Game) :
  (fst (checkCompletion g) = Some true -> snd (checkCompletion g) = g)
  /\ (forall (d : string) (p : Vector3),
         d <> getDimension "overworld" \/ p <> level3ResetCommandBlockPos ->
         getBlock d p (snd (checkCompletion g)) = getBlock d p g)
  /\ (agentLocation (snd (checkCompletion g)) = agentLocation g
      \/ agentLocation (snd (checkCompletion g)) = level3StartPosition).
Proof.
  unfold checkCompletion.
  destruct (isComplete g && negb (isOutOfBounds g)); simpl.
  { split; [reflexivity|]. split; [reflexivity | left; reflexivity]. }
  destruct (isOutOfBounds g); simpl.
  { split; [discriminate|]. split; [reflexivity | right; reflexivity]. }
  destruct (isAgentAt Level3EndPosition g); simpl.
  - split; [discriminate|]. split; [|right; reflexivity].
    intros d p Hother. unfold getBlock, fillBlocks. simpl.
    destruct (String.eqb_spec d (getDimension "overworld")) as [Hd | _]; [|reflexivity].
    destruct (Vector3Eqb p level3ResetCommandBlockPos) eqn:Hp; [|reflexivity].
    apply Level3Facts.Vector3Eqb_eq in Hp. destruct Hother; contradiction.
  - split; [discriminate|]. split; [reflexivity | left; reflexivity].
Qed.

(** A check with the agent on the start position, not over water, changes
    nothing and does not return [false]. *)
Lemma check_at_start (g : Game) :
  agentLocation g = level3StartPosition ->
  getBlock (getDimension "overworld")
    (Vector3Add level3StartPosition (vector3 0 (-1) 0)) g <> Some Water ->
  snd (checkCompletion g) = g /\ fst (checkCompletion g) <> Some false.
Proof.
  intros Hat Hdry.
  assert (Hin : isOutOfBounds g = false).
  { apply Level3Facts.isOutOfBounds_false. unfold onWater. rewrite Hat. exact Hdry. }
  assert (Hend : isAgentAt Level3EndPosition g = false).
  { unfold isAgentAt. rewrite Hat. reflexivity. }
  unfold checkCompletion. rewrite Hin, Hend.
  destruct (isComplete g); simpl; split; first [reflexivity | discriminate].
Qed.

(** X18. A recovery is not repeated: when the block under the start position
    is not water, the check that follows a recovery from the water or from a
    wrong arrangement changes nothing and does not return [false]. *)
Theorem recovery_is_not_repeated (g : Game) :
  getBlock (getDimension "overworld")
    (Vector3Add level3StartPosition (vector3 0 (-1) 0)) g <> Some Water ->
  (snd (checkCompletion (afterOutOfBounds g)) = afterOutOfBounds g
   /\ fst (checkCompletion (afterOutOfBounds g)) <> Some false)
  /\ (snd (checkCompletion (afterIncorrect g)) = afterIncorrect g
      /\ fst (checkCompletion (afterIncorrect g)) <> Some false).
Proof.
  intros Hdry. split; apply check_at_start; try reflexivity; try exact Hdry.
  unfold afterIncorrect, getBlock, fillBlocks. simpl.
  rewrite andb_false_r. exact Hdry.
Qed.

End Checks.

Section Walls.
Context `{Host} `{BlockTypes}.

Lemma between_swap (a b c : Z) : between a b c = between b a c.
Proof. unfold between. rewrite Z.min_comm, Z.max_comm. reflexivity. Qed.

Lemma between_ends (a b : Z) : between a b a = true /\ between a b b = true.
Proof. unfold between. rewrite !andb_true_iff, !Z.leb_le. lia. Qed.

Lemma between_same (a c : Z) : between a a c = (c =? a)%Z.
Proof.
  unfold between. rewrite Z.min_id, Z.max_id.
  destruct (Z.eqb_spec c a) as [-> | Hne].
  - rewrite Z.leb_refl. reflexivity.
  - destruct (Z.leb_spec a c), (Z.leb_spec c a); simpl; first [reflexivity | lia].
Qed.

Lemma inVolume_swap (a b p : Vector3) : inVolume a b p = inVolume b a p.
Proof.
  unfold inVolume.
  rewrite (between_swap (x a)), (between_swap (y a)), (between_swap (z a)). reflexivity.
Qed.

Lemma inVolume_corners (a b : Vector3) : inVolume a b a = true /\ inVolume a b b = true.
Proof.
  unfold inVolume.
  destruct (between_ends (x a) (x b)) as [-> ->].
  destruct (between_ends (y a) (y b)) as [-> ->].
  destruct (between_ends (z a) (z b)) as [-> ->]. split; reflexivity.
Qed.

Lemma inVolume_same (a p : Vector3) : inVolume a a p = Vector3Eqb p a.
Proof. unfold inVolume, Vector3Eqb. rewrite !between_same. reflexivity. Qed.

Lemma between_range (a b c : Z) :
  between a b c = true <-> (Z.min a b <= c <= Z.max a b)%Z.
Proof. unfold between. rewrite andb_true_iff, !Z.leb_le. reflexivity. Qed.

(** The blocks of a volume are those whose coordinates lie between the
    coordinates of the two corners. *)
Lemma inVolume_range (a b p : Vector3) :
  inVolume a b p = true
  <-> (Z.min (x a) (x b) <= x p <= Z.max (x a) (x b))%Z
      /\ (Z.min (y a) (y b) <= y p <= Z.max (y a) (y b))%Z
      /\ (Z.min (z a) (z b) <= z p <= Z.max (z a) (z b))%Z.
Proof. unfold inVolume. rewrite !andb_true_iff, !between_range. tauto. Qed.

(** X19. With the volume of the host read as the box between its two corners,
    the corners included: [fillWall] puts the block on every position of the
    overworld whose coordinates lie between those of the two corners of the
    wall, the corners among them, and leaves every other block, the agent
    and the texts as they are; giving the corners the other way round fills
    the same blocks; and clearing a wall after filling it leaves what
    clearing alone leaves. *)
Theorem walls (wall : Wall) (block : string) (g : Game) :
  (forall p : Vector3,
      (Z.min (x (startPos wall)) (x (endPos wall)) <= x p
       <= Z.max (x (startPos wall)) (x (endPos wall)))%Z ->
      (Z.min (y (startPos wall)) (y (endPos wall)) <= y p
       <= Z.max (y (startPos wall)) (y (endPos wall)))%Z ->
      (Z.min (z (startPos wall)) (z (endPos wall)) <= z p
       <= Z.max (z (startPos wall)) (z (endPos wall)))%Z ->
      getBlock (getDimension "overworld") p (fillWall wall block g) = Some block)
  /\ getBlock (getDimension "overworld") (startPos wall) (fillWall wall block g) = Some block
  /\ getBlock (getDimension "overworld") (endPos wall) (fillWall wall block g) = Some block
  /\ (forall (d : string) (p : Vector3),
         d <> getDimension "overworld"
         \/ ~ ((Z.min (x (startPos wall)) (x (endPos wall)) <= x p
                <= Z.max (x (startPos wall)) (x (endPos wall)))%Z
               /\ (Z.min (y (startPos wall)) (y (endPos wall)) <= y p
                   <= Z.max (y (startPos wall)) (y (endPos wall)))%Z
               /\ (Z.min (z (startPos wall)) (z (endPos wall)) <= z p
                   <= Z.max (z (startPos wall)) (z (endPos wall)))%Z) ->
         getBlock d p (fillWall wall block g) = getBlock d p g)
  /\ (forall (d : string) (p : Vector3),
         getBlock d p (fillWall (mkWall (endPos wall) (startPos wall)) block g)
         = getBlock d p (fillWall wall block g))
  /\ (forall (d : string) (p : Vector3),
         getBlock d p (clearWall wall (fillWall wall block g))
         = getBlock d p (clearWall wall g))
  /\ agentLocation (fillWall wall block g) = agentLocation g
  /\ title (fillWall wall block g) = title g
  /\ subtitle (fillWall wall block g) = subtitle g.
Proof.
  destruct (inVolume_corners (startPos wall) (endPos wall)) as [Hs He].
  unfold clearWall, fillWall, fillVolume, getBlock. simpl.
  rewrite String.eqb_refl, Hs, He.
  split; [|split; [reflexivity|]; split; [reflexivity|]; split; [|split; [|split]]].
  - intros p Hx Hy Hz.
    rewrite (proj2 (inVolume_range (startPos wall) (endPos wall) p)); [reflexivity|].
    split; [exact Hx | split; [exact Hy | exact Hz]].
  - intros d p [Hd | Hp].
    + apply String.eqb_neq in Hd. rewrite Hd. reflexivity.
    + destruct (inVolume (startPos wall) (endPos wall) p) eqn:Hin.
      * apply inVolume_range in Hin. contradiction.
      * rewrite andb_false_r. reflexivity.
  - intros d p. rewrite (inVolume_swap (endPos wall)). reflexivity.
  - intros d p.
    destruct (String.eqb d (getDimension "overworld")
              && inVolume (startPos wall) (endPos wall) p); reflexivity.
  - repeat split.
Qed.

(** X20. [startLevel] is the wall of one block: it puts a redstone block on
    the command block position of the overworld, as filling the wall whose
    two corners are that position does, and changes no other block. *)
Theorem startLevel_one_block (commandBlockPos : Vector3) (g : Game) :
  getBlock (getDimension "overworld") commandBlockPos (startLevel commandBlockPos g)
  = Some RedstoneBlock
  /\ (forall (d : string) (p : Vector3),
         getBlock d p (startLevel commandBlockPos g)
         = getBlock d p (fillWall (mkWall commandBlockPos commandBlockPos) RedstoneBlock g))
  /\ (forall (d : string) (p : Vector3),
         d <> getDimension "overworld" \/ p <> commandBlockPos ->
         getBlock d p (startLevel commandBlockPos g) = getBlock d p g).
Proof.
  split; [apply Level3Facts.fillBlocks_places|]. split.
  - intros d p. unfold startLevel, fillWall, fillVolume, fillBlocks, getBlock. simpl.
    rewrite inVolume_same. reflexivity.
  - intros d p Hother. unfold startLevel, fillBlocks, getBlock. simpl.
    destruct (String.eqb_spec d (getDimension "overworld")) as [Hd | _]; [|reflexivity].
    destruct (Vector3Eqb p commandBlockPos) eqn:Hp; [|reflexivity].
    apply Level3Facts.Vector3Eqb_eq in Hp. destruct Hother; contradiction.
Qed.

End Walls.

Section Callbacks.
Context `{Runtime} `{Host} `{Main}.

(** X21. [onStart] announces the level, puts the agent on the start position
    and a redstone block on the command block position, and changes no other
    block and nothing of the stores. When the block under the start position
    is not water, the check that follows changes nothing and does not return
    [false]. *)
Theorem onStart_sets_up (s : Session) :
  agentLocation (game (onStart s)) = level3StartPosition
  /\ getBlock (getDimension "overworld") Level3CommandBlockPos (game (onStart s))
     = Some RedstoneBlock
  /\ (forall (d : string) (p : Vector3),
         d <> getDimension "overworld" \/ p <> Level3CommandBlockPos ->
         getBlock d p (game (onStart s)) = getBlock d p (game s))
  /\ mindKeeper (onStart s) = say ["%message.level3.started"] (mindKeeper s)
  /\ actionBar (onStart s) = actionBar s
  /\ (getBlock (getDimension "overworld")
        (Vector3Add level3StartPosition (vector3 0 (-1) 0)) (game s) <> Some Water ->
      snd (checkCompletion (game (onStart s))) = game (onStart s)
      /\ fst (checkCompletion (game (onStart s))) <> Some false).
Proof.
  assert (Hblocks : forall (d : string) (p : Vector3),
             d <> getDimension "overworld" \/ p <> Level3CommandBlockPos ->
             getBlock d p (game (onStart s)) = getBlock d p (game s)).
  { intros d p Hother. unfold onStart, onGame, getBlock, startLevel, fillBlocks. simpl.
    destruct (String.eqb_spec d (getDimension "overworld")) as [Hd | _]; [|reflexivity].
    destruct (Vector3Eqb p Level3CommandBlockPos) eqn:Hp; [|reflexivity].
    apply Level3Facts.Vector3Eqb_eq in Hp. destruct Hother; contradiction. }
  split; [reflexivity|]. split.
  { unfold onStart, onGame, getBlock, startLevel, fillBlocks. simpl.
    rewrite String.eqb_refl. reflexivity. }
  split; [exact Hblocks|]. split; [reflexivity|]. split; [reflexivity|].
  intros Hdry. apply check_at_start; [reflexivity|].
  rewrite Hblocks; [exact Hdry | right; discriminate].
Qed.

(** X22. [onComplete] records the progress: when the store of the current
    level is registered as a number and holds [n], it holds [n + 1] once the
    host has run the queue. [onComplete] announces the completion, clears the
    action bar that [onTick] sets, and leaves the blocks and the agent as
    they are. *)
Theorem onComplete_records (s : Session) (n : float) :
  getDynamicProperty (world (mindKeeper s)) CURRENT_LEVEL = Returns (Some (VNumber n)) ->
  findType (registerdStores (mindKeeper s)) CURRENT_LEVEL = Some StoreType_number ->
  dynamicProperties (flush (world (mindKeeper (onComplete s)))) !! CURRENT_LEVEL
  = Some (VNumber (n + 1)%float)
  /\ messages (world (mindKeeper (onComplete s)))
     = messages (world (mindKeeper s)) ++ ["%message.level3.complete"]
  /\ actionBar (onTick s) = Some "%message.level3.make"
  /\ actionBar (onComplete (onTick s)) = None
  /\ blocks (game (onComplete s)) = blocks (game s)
  /\ agentLocation (game (onComplete s)) = agentLocation (game s).
Proof.
  intros Hread Hfind. unfold onComplete, onKeeper. simpl.
  rewrite (increment_number _ CURRENT_LEVEL n); [| exact Hread | exact Hfind].
  simpl. rewrite flush_run, lookup_insert_eq. repeat split.
Qed.

End Callbacks.

End Level3More.

(** ** The further properties at work *)

Import Scenario.

Lemma progress_typed : typed progress.
Proof.
  split; [|reflexivity].
  intros store value Hk _. unfold progress in Hk. simpl in Hk.
  repeat (rewrite lookup_insert in Hk;
          destruct (decide _) as [<- | _] in Hk; [injection Hk as <-; reflexivity|]).
  rewrite lookup_empty in Hk. discriminate Hk.
Defined.

Lemma registerToWorld_defines_witness :
  let mk := keeper [("level", StoreType_number)] emptyWorld in
  get "level" (registerToWorld mk) = (Some (VNumber 0), registerToWorld mk).
Proof.
  intros mk. etransitivity.
  - apply (registerToWorld_defines mk "level" StoreType_number); reflexivity.
  - vm_compute. reflexivity.
Defined.

Lemma registerToWorld_twice_witness :
  let mk := keeper [("level", StoreType_number); ("player", StoreType_string)] emptyWorld in
  registerToWorld (registerToWorld mk) = registerToWorld mk.
Proof.
  intros mk. apply registerToWorld_twice.
  intros s [<- | [<- | []]]; reflexivity.
Defined.

Lemma typed_is_kept_witness :
  typed (withWorld flush (chatCommands "!set currentLevel 3" progress))
  /\ typed (set "player" (VNumber 1) progress)
  /\ typed (increment "currentLevel" progress).
Proof.
  destruct (typed_is_kept progress progress_typed) as (Hset & Hinc & Hchat & _).
  split; [|split; [apply Hset | apply Hinc]].
  destruct (typed_is_kept (chatCommands "!set currentLevel 3" progress)
              (Hchat "!set currentLevel 3")) as (_ & _ & _ & Hflush & _).
  exact Hflush.
Defined.

Lemma registerToWorld_typed_witness :
  typed (registerToWorld progress).
Proof.
  apply registerToWorld_typed; [|exact progress_typed].
  repeat constructor; simpl; intuition discriminate.
Defined.

Lemma increment_twice_witness :
  dynamicProperties
    (flush (world (increment "currentLevel" (increment "currentLevel" progress))))
    !! "currentLevel" = Some (VNumber 3)
  /\ dynamicProperties
       (flush (world (increment "currentLevel"
                        (withWorld flush (increment "currentLevel" progress)))))
       !! "currentLevel" = Some (VNumber 4).
Proof.
  assert (Hread : getDynamicProperty (world progress) "currentLevel"
                  = Returns (Some (VNumber 2))) by (vm_compute; reflexivity).
  exact (increment_twice progress "currentLevel" 2%float Hread eq_refl).
Defined.

Lemma set_last_wins_witness :
  dynamicProperties
    (flush (world (set "player" (VString "bob") (set "player" (VString "al") progress))))
    !! "player" = Some (VString "bob")
  /\ dynamicProperties
       (flush (world (set "player" (VNumber 7) (set "player" (VString "al") progress))))
       !! "player" = Some (VString "al").
Proof.
  split.
  - apply (set_last_wins progress "player" (VString "al") (VString "bob")); reflexivity.
  - apply (set_last_wins progress "player" (VString "al") (VNumber 7)); reflexivity.
Defined.

Lemma get_command_reports_witness :
  chatCommands "!get currentLevel" progress = say ["Value of currentLevel is 2"] progress
  /\ chatCommands "!get score now" progress
     = say ["Store score is not defined"; "Value of score is undefined"] progress.
Proof.
  split.
  - etransitivity.
    + apply (proj1 (get_command_reports "!get currentLevel" "currentLevel" [] progress
                      eq_refl) (VNumber 2)).
      vm_compute. reflexivity.
    + vm_compute. reflexivity.
  - apply (proj1 (proj2 (get_command_reports "!get score now" "score" ["now"] progress
                           eq_refl))).
    vm_compute. reflexivity.
Defined.

Lemma listStores_reports_witness :
  chatCommands "!listStoresPlease" progress
  = say ["currentLevel is number"; "player is string"; "done is boolean"] progress.
Proof. apply (listStores_reports "!listStoresPlease" progress). reflexivity. Defined.

Lemma set_command_refusals_witness :
  chatCommands "!set" progress = say ["Please provide a store to set"] progress
  /\ chatCommands "!set player" progress
     = say ["Please provide a value to set for player"] progress
  /\ chatCommands "!set score 3" progress = say ["Store score is not defined"] progress.
Proof.
  split; [|split].
  - apply (proj1 (set_command_refusals "!set" progress)). reflexivity.
  - apply (proj1 (proj2 (set_command_refusals "!set player" progress)) "player").
    reflexivity.
  - apply (proj2 (proj2 (set_command_refusals "!set score 3" progress)) "score" "3" []);
      reflexivity.
Defined.

Lemma other_messages_ignored_witness :
  chatCommands "hello there" progress = progress
  /\ chatCommands "!SET player al" (withSecondWarning true progress)
     = withSecondWarning true progress.
Proof.
  split; apply other_messages_ignored; reflexivity.
Defined.

Lemma delete_then_register_witness :
  let mk := withSecondWarning true progress in
  dynamicProperties (world (registerToWorld (chatCommands "!deleteStoresConfirm" mk)))
    !! "currentLevel" = Some (VNumber 0)
  /\ dynamicProperties (world (registerToWorld (chatCommands "!deleteStoresConfirm" mk)))
       !! "score" = None.
Proof.
  intros mk. split.
  - apply (delete_then_register "!deleteStoresConfirm" mk "currentLevel"); reflexivity.
  - apply (delete_then_register "!deleteStoresConfirm" mk "score"); reflexivity.
Defined.

Lemma recovery_is_not_repeated_witness :
  snd (checkCompletion (afterOutOfBounds drowned)) = afterOutOfBounds drowned
  /\ snd (checkCompletion (afterIncorrect arrived)) = afterIncorrect arrived.
Proof.
  split.
  - apply (Level3More.recovery_is_not_repeated drowned). discriminate.
  - apply (Level3More.recovery_is_not_repeated arrived). discriminate.
Defined.

Lemma onComplete_records_witness :
  let s := Level3Callbacks.mkSession solved progress None in
  dynamicProperties
    (flush (world (Level3Callbacks.mindKeeper (Level3Callbacks.onComplete s))))
    !! "currentLevel" = Some (VNumber 3)
  /\ Level3Callbacks.actionBar (Level3Callbacks.onComplete (Level3Callbacks.onTick s)) = None.
Proof.
  intros s.
  assert (Hread : getDynamicProperty (world (Level3Callbacks.mindKeeper s)) "currentLevel"
                  = Returns (Some (VNumber 2))) by (vm_compute; reflexivity).
  destruct (@Level3More.onComplete_records runtime main s 2%float Hread eq_refl)
    as (Hlevel & _ & _ & Hbar & _).
  split; [exact Hlevel | exact Hbar].
Defined.

Lemma walls_witness :
  getBlock "minecraft:overworld" (vector3 11 71 5)
    (LevelUtils.fillWall gate "minecraft:stone_bricks" (game [] level3StartPosition))
  = Some "minecraft:stone_bricks"
  /\ getBlock "minecraft:overworld" (vector3 13 70 5)
       (LevelUtils.fillWall gate "minecraft:stone_bricks" (game [] level3StartPosition))
     = Some "minecraft:stone".
Proof.
  destruct (Level3More.walls gate "minecraft:stone_bricks" (game [] level3StartPosition))
    as (Hinside & _ & _ & Houtside & _).
  split.
  - apply (Hinside (vector3 11 71 5)); simpl; lia.
  - rewrite (Houtside "minecraft:overworld" (vector3 13 70 5)); [reflexivity|].
    right. simpl. lia.
Defined.

Example gate_opens_and_closes :
  let closed := LevelUtils.fillWall gate "minecraft:stone_bricks" (game [] level3StartPosition) in
  map (fun p => getBlock "minecraft:overworld" p closed)
    [vector3 10 70 5; vector3 11 71 5; vector3 12 70 5; vector3 13 70 5; vector3 11 72 5]
  = [Some "minecraft:stone_bricks"; Some "minecraft:stone_bricks";
     Some "minecraft:stone_bricks"; Some "minecraft:stone"; Some "minecraft:stone"]
  /\ map (fun p => getBlock "minecraft:overworld" p (LevelUtils.clearWall gate closed))
       [vector3 10 70 5; vector3 12 71 5; vector3 13 70 5]
     = [Some "minecraft:air"; Some "minecraft:air"; Some "minecraft:stone"].
Proof. vm_compute. split; reflexivity. Qed.
